(** * 3D-VoxelBuilder: the voxel store and the push-pull geometry

    A shallow embedding of the zustand store (useStore: addVoxel,
    removeVoxel, pushPullFace, resetWorld), of findVoxelsInSamePlane of
    components/VoxelWorld.tsx and of the normal quantisation of
    components/Voxel.tsx and checkGridSnapping.

    A JavaScript number is an IEEE 754 binary64 value: it is modelled by
    Rocq's primitive [float], whose operations are the same binary64
    operations with round-to-nearest-even, so that [0.3], [0.01] and
    every sum and product below have the bits they have in the browser. *)

From Stdlib Require Import ZArith List Bool String Lia.
From Stdlib Require Import Floats Uint63.
Import ListNotations.

Set Warnings "-inexact-float".

(** ** JavaScript numbers *)

Module JS.

Local Open Scope float_scope.

Definition number := float.

(** [a === b] on numbers: false on NaN, true on +0 and -0. *)
Definition strictEq (a b : number) : bool := a =? b.

(** [a < b] and [a > b]. *)
Definition lt (a b : number) : bool := a <? b.
Definition gt (a b : number) : bool := b <? a.
Definition le (a b : number) : bool := a <=? b.

Definition Math_abs (a : number) : number := abs a.

(** A non-negative integer below 2^63 as a number. *)
Definition ofZ (n : Z) : number := of_uint63 (Uint63.of_Z n).

(** [Math.round x]: the integer nearest to [x], a tie going to the
    larger one; NaN, the infinities and the zeros are returned as they
    are, and a result of zero keeps the sign of [x].  A finite [x] is
    [m * 2^e]; when [e < 0] its magnitude is below 2^53 and the rounded
    integer is exact as a number. *)
Definition Math_round (a : number) : number :=
  match Prim2SF a with
  | S754_finite s m e =>
      if (0 <=? e)%Z then a
      else
        let d := (2 ^ (- e))%Z in
        let q := (Z.pos m / d)%Z in
        let r := (Z.pos m mod d)%Z in
        if s then - ofZ (if (d <? 2 * r)%Z then q + 1 else q)%Z
        else ofZ (if (d <=? 2 * r)%Z then q + 1 else q)%Z
  | _ => a
  end.

(** The text of [x.toFixed(f)] up to what distinguishes two such
    texts: "NaN", a signed "Infinity", a sign with the digits of the
    integer [n] nearest to [|x| * 10^f] (a tie going to the larger
    [n]), or, from 10^21 on, a sign with the text of the number
    itself.  Minus zero prints without a sign, a negative number that
    rounds to zero prints with one. *)
Inductive fixedText : Type :=
| FixedNaN
| FixedInfinity (neg : bool)
| FixedDigits (neg : bool) (n : Z)
| FixedLarge (neg : bool) (a : number).

Definition toFixed (f : Z) (a : number) : fixedText :=
  match Prim2SF a with
  | S754_nan => FixedNaN
  | S754_infinity s => FixedInfinity s
  | S754_zero _ => FixedDigits false 0
  | S754_finite s m e =>
      if (0 <=? e)%Z then
        if (10 ^ 21 <=? Z.pos m * 2 ^ e)%Z then FixedLarge s (abs a)
        else FixedDigits s (Z.pos m * 2 ^ e * 10 ^ f)%Z
      else
        let d := (2 ^ (- e))%Z in
        if (10 ^ 21 * d <=? Z.pos m)%Z then FixedLarge s (abs a)
        else
          let q := (Z.pos m * 10 ^ f / d)%Z in
          let r := ((Z.pos m * 10 ^ f) mod d)%Z in
          FixedDigits s (if (d <=? 2 * r)%Z then q + 1 else q)%Z
  end.

Definition fixedText_eqb (k1 k2 : fixedText) : bool :=
  match k1, k2 with
  | FixedNaN, FixedNaN => true
  | FixedInfinity s1, FixedInfinity s2 => Bool.eqb s1 s2
  | FixedDigits s1 n1, FixedDigits s2 n2 => Bool.eqb s1 s2 && (n1 =? n2)%Z
  | FixedLarge s1 a1, FixedLarge s2 a2 => Bool.eqb s1 s2 && Leibniz.eqb a1 a2
  | _, _ => false
  end.

(** Two numbers print the same text in a template string
    ([`${a}`]) exactly when they are the same number, the two zeros
    both printing "0" and NaN printing "NaN". *)
Definition sameText (a b : number) : bool :=
  (a =? b) || (is_nan a && is_nan b).

(** The values the counter of [for (let i = i0; i <= steps; i++)]
    takes, in order.  The loop is run with fuel: [None] is a loop that
    has not ended when the fuel has. *)
Fixpoint forUpTo (fuel : nat) (i steps : number) : option (list number) :=
  match fuel with
  | O => None
  | S fuel' =>
      if i <=? steps
      then option_map (cons i) (forUpTo fuel' (i + 1) steps)
      else Some []
  end.

End JS.

(** ** three.js vectors *)

Record Vector3 : Type := mkVector3 { x : JS.number; y : JS.number; z : JS.number }.

Module Vec.

Local Open Scope float_scope.

(** [new Vector3()] *)
Definition new : Vector3 := mkVector3 0 0 0.

(** [new Vector3().copy(v)] and [v.clone()] *)
Definition copy (v : Vector3) : Vector3 := mkVector3 v.(x) v.(y) v.(z).

Definition add (a b : Vector3) : Vector3 :=
  mkVector3 (a.(x) + b.(x)) (a.(y) + b.(y)) (a.(z) + b.(z)).

Definition multiplyScalar (a : Vector3) (s : JS.number) : Vector3 :=
  mkVector3 (a.(x) * s) (a.(y) * s) (a.(z) * s).

(** three.js divides by multiplying with the reciprocal. *)
Definition divideScalar (a : Vector3) (s : JS.number) : Vector3 :=
  multiplyScalar a (1 / s).

End Vec.

(** ** The store (hooks/useStore) *)

Record Voxel : Type := mkVoxel { position : Vector3; color : string }.

Record Face : Type := mkFace { normal : Vector3 }.

Inductive ToolMode : Type := mode_add | mode_remove | mode_pushpull.

Record StoreState : Type := mkStore {
  voxels : list Voxel;
  hoveredVoxel : option Voxel;
  selectedFace : option Face;
  toolMode : ToolMode
}.

(** zustand's [set] merges the returned fields into the state. *)
Definition set_voxels (state : StoreState) (vs : list Voxel) : StoreState :=
  mkStore vs state.(hoveredVoxel) state.(selectedFace) state.(toolMode).

Definition set_hoveredVoxel (state : StoreState) (h : option Voxel) : StoreState :=
  mkStore state.(voxels) h state.(selectedFace) state.(toolMode).

Definition set_selectedFace (state : StoreState) (f : option Face) : StoreState :=
  mkStore state.(voxels) state.(hoveredVoxel) f state.(toolMode).

Definition set_toolMode (state : StoreState) (m : ToolMode) : StoreState :=
  mkStore state.(voxels) state.(hoveredVoxel) state.(selectedFace) m.

Section Store.

Local Open Scope float_scope.

Definition isSamePosition (a b : Vector3) : bool :=
  JS.strictEq a.(x) b.(x) && JS.strictEq a.(y) b.(y) && JS.strictEq a.(z) b.(z).

Definition platform : list Voxel :=
  [ mkVoxel (mkVector3 0 0 0) "#1e88e5";
    mkVoxel (mkVector3 0.3 0 0) "#1e88e5";
    mkVoxel (mkVector3 0 0 0.3) "#1e88e5";
    mkVoxel (mkVector3 0.3 0 0.3) "#1e88e5" ].

Definition initialState : StoreState := mkStore platform None None mode_add.

Definition setHoveredVoxel (voxel : option Voxel) (state : StoreState) : StoreState :=
  set_hoveredVoxel state voxel.

Definition setSelectedFace (face : option Face) (state : StoreState) : StoreState :=
  set_selectedFace state face.

Definition setToolMode (mode : ToolMode) (state : StoreState) : StoreState :=
  set_toolMode state mode.

Definition addVoxel (voxel : Voxel) (state : StoreState) : StoreState :=
  let exists_ :=
    existsb (fun v => isSamePosition v.(position) voxel.(position)) state.(voxels) in
  if negb exists_ then
    set_voxels state
      (state.(voxels) ++
       [ mkVoxel (mkVector3 voxel.(position).(x) voxel.(position).(y) voxel.(position).(z))
                 voxel.(color) ])
  else state.

Definition removeVoxel (pos : Vector3) (state : StoreState) : StoreState :=
  let filteredVoxels :=
    filter (fun voxel => negb (isSamePosition voxel.(position) pos)) state.(voxels) in
  set_voxels state filteredVoxels.

Definition resetWorld (state : StoreState) : StoreState := set_voxels state platform.

(** The test written out at every occupancy check of pushPullFace and
    of VoxelWorld.tsx: each coordinate of [p] within 0.01 of [q]'s. *)
Definition within (p q : Vector3) : bool :=
  JS.lt (JS.Math_abs (p.(x) - q.(x))) 0.01
  && JS.lt (JS.Math_abs (p.(y) - q.(y))) 0.01
  && JS.lt (JS.Math_abs (p.(z) - q.(z))) 0.01.

(** [Math.round(distance / 0.3) * 0.3] *)
Definition quantize (distance : JS.number) : JS.number :=
  JS.Math_round (distance / 0.3) * 0.3.

(** [distToPlane < 0.01] for the plane through [facePosition] with
    normal [faceNormal]. *)
Definition onPlane (faceNormal facePosition p : Vector3) : bool :=
  let a := faceNormal.(x) in
  let b := faceNormal.(y) in
  let c := faceNormal.(z) in
  let d := - (a * facePosition.(x) + b * facePosition.(y) + c * facePosition.(z)) in
  let distToPlane := JS.Math_abs (a * p.(x) + b * p.(y) + c * p.(z) + d) in
  JS.lt distToPlane 0.01.

(** [hasNeighbor]: some voxel of [vs] lies at [p + faceNormal * 0.3]. *)
Definition hasNeighbor (vs : list Voxel) (faceNormal p : Vector3) : bool :=
  let checkPos := Vec.add (Vec.copy p) (Vec.multiplyScalar (Vec.copy faceNormal) 0.3) in
  existsb (fun v => within v.(position) checkPos) vs.

(** The [voxelsInPlane] of pushPullFace. *)
Definition voxelsInPlane (vs : list Voxel) (faceNormal facePosition : Vector3)
  : list Voxel :=
  filter (fun voxel =>
            if onPlane faceNormal facePosition voxel.(position)
            then negb (hasNeighbor vs faceNormal voxel.(position))
            else false) vs.

(** The voxels the outward branch stages for one face voxel: one per
    layer [i] whose cell no voxel of [updatedVoxels] lies at. *)
Definition pushed (updatedVoxels : list Voxel) (faceNormal : Vector3)
           (layers : list JS.number) (voxel : Voxel) : list Voxel :=
  flat_map (fun i =>
              let newPosition :=
                Vec.add (Vec.copy voxel.(position))
                        (Vec.multiplyScalar (Vec.copy faceNormal) (i * 0.3)) in
              let exists_ :=
                existsb (fun v => within v.(position) newPosition) updatedVoxels in
              if negb exists_ then [ mkVoxel newPosition voxel.(color) ] else [])
           layers.

(** The positions the inward branch marks for one face voxel.  The
    source keeps them in a [Set] of texts ["x,y,z"]; a text is kept
    here as the position it prints, and two texts are equal when
    [samePosKey] holds. *)
Definition pulled (vs : list Voxel) (faceNormal : Vector3)
           (layers : list JS.number) (voxel : Voxel) : list Vector3 :=
  flat_map (fun i =>
              let checkPosition :=
                Vec.add (Vec.copy voxel.(position))
                        (Vec.multiplyScalar (Vec.copy faceNormal) (- i * 0.3)) in
              map position
                  (filter (fun existingVoxel =>
                             within existingVoxel.(position) checkPosition) vs))
           layers.

Definition samePosKey (p q : Vector3) : bool :=
  JS.sameText p.(x) q.(x) && JS.sameText p.(y) q.(y) && JS.sameText p.(z) q.(z).

(** [positionsToRemove.has(posKey)] *)
Definition has (positionsToRemove : list Vector3) (p : Vector3) : bool :=
  existsb (fun k => samePosKey k p) positionsToRemove.

(** [pushPullFace(normal, distance)].  The argument [normal] is not
    read: the plane and the direction come from [selectedFace].  The
    inner [for] loop has the same bounds for every face voxel, so the
    values of its counter are computed once; both branches are reached
    with a face voxel at hand, so a loop that does not end is a call
    that does not return. *)
Definition pushPullFace (fuel : nat) (normal_ : Vector3) (distance : JS.number)
           (state : StoreState) : option StoreState :=
  let normalizedDistance := quantize distance in
  if JS.strictEq normalizedDistance 0 then Some state
  else
    match state.(selectedFace), state.(hoveredVoxel) with
    | Some face, Some hovered =>
        let faceNormal := face.(normal) in
        let facePosition := hovered.(position) in
        let inPlane := voxelsInPlane state.(voxels) faceNormal facePosition in
        if (List.length inPlane =? 0)%nat then Some state
        else
          let updatedVoxels := state.(voxels) in
          if JS.gt normalizedDistance 0 then
            let steps := JS.Math_round (JS.Math_abs normalizedDistance / 0.3) in
            match JS.forUpTo fuel 1 steps with
            | None => None
            | Some layers =>
                let newVoxels := flat_map (pushed updatedVoxels faceNormal layers) inPlane in
                Some (set_voxels state (updatedVoxels ++ newVoxels))
            end
          else if JS.lt normalizedDistance 0 then
            let steps := JS.Math_round (JS.Math_abs normalizedDistance / 0.3) in
            match JS.forUpTo fuel 1 steps with
            | None => None
            | Some layers =>
                let positionsToRemove :=
                  flat_map (pulled state.(voxels) faceNormal layers) inPlane in
                if (0 <? List.length positionsToRemove)%nat then
                  Some (set_voxels state
                          (filter (fun voxel => negb (has positionsToRemove voxel.(position)))
                                  state.(voxels)))
                else Some (set_voxels state updatedVoxels)
            end
          else Some (set_voxels state updatedVoxels)
    | _, _ => Some state
    end.

End Store.

(** ** components/VoxelWorld.tsx and components/Voxel.tsx *)

Record PlaneFace : Type := mkPlaneFace {
  face_position : Vector3;
  face_normal : Vector3;
  face_color : string
}.

(** What findVoxelsInSamePlane returns: [{ voxels, center, faces }]. *)
Record Selection : Type := mkSelection {
  sel_voxels : list Voxel;
  center : Vector3;
  faces : list PlaneFace
}.

(** The loop state of findVoxelsInSamePlane. *)
Record Scan : Type := mkScan {
  scan_voxels : list Voxel;
  scan_faces : list PlaneFace;
  processedPositions : list (list JS.fixedText)
}.

Section World.

Local Open Scope float_scope.

(** The quantisation of a face normal to a main axis, as
    handlePointerEnter and checkGridSnapping write it. *)
Definition normalizedNormal (worldNormal : Vector3) : Vector3 :=
  let absX := JS.Math_abs worldNormal.(x) in
  let absY := JS.Math_abs worldNormal.(y) in
  let absZ := JS.Math_abs worldNormal.(z) in
  if JS.gt absX absY && JS.gt absX absZ then
    mkVector3 (if JS.gt worldNormal.(x) 0 then 1 else -1) 0 0
  else if JS.gt absY absX && JS.gt absY absZ then
    mkVector3 0 (if JS.gt worldNormal.(y) 0 then 1 else -1) 0
  else
    mkVector3 0 0 (if JS.gt worldNormal.(z) 0 then 1 else -1).

(** checkGridSnapping rounds each coordinate of the hit voxel to the
    grid: [Math.round(c / 0.3) * 0.3]. *)
Definition snap (p : Vector3) : Vector3 :=
  mkVector3 (quantize p.(x)) (quantize p.(y)) (quantize p.(z)).

(** [posKey]: the position printed with two decimals and the normal
    with one, joined by commas. *)
Definition posKey (facePosition faceNormal : Vector3) : list JS.fixedText :=
  [ JS.toFixed 2 facePosition.(x); JS.toFixed 2 facePosition.(y);
    JS.toFixed 2 facePosition.(z);
    JS.toFixed 1 faceNormal.(x); JS.toFixed 1 faceNormal.(y);
    JS.toFixed 1 faceNormal.(z) ].

Fixpoint posKey_eqb (k1 k2 : list JS.fixedText) : bool :=
  match k1, k2 with
  | [], [] => true
  | t1 :: k1', t2 :: k2' => JS.fixedText_eqb t1 t2 && posKey_eqb k1' k2'
  | _, _ => false
  end.

(** [processedPositions.has(posKey)] *)
Definition processed_has (processed : list (list JS.fixedText))
           (key : list JS.fixedText) : bool :=
  existsb (fun k => posKey_eqb k key) processed.

(** One turn of [voxels.forEach] in findVoxelsInSamePlane. *)
Definition scanVoxel (vs : list Voxel) (pos normal_ : Vector3)
           (acc : Scan) (voxel : Voxel) : Scan :=
  if onPlane normal_ pos voxel.(position) then
    let faceNormal := Vec.copy normal_ in
    let facePosition := Vec.copy voxel.(position) in
    let key := posKey facePosition faceNormal in
    if processed_has acc.(processedPositions) key then acc
    else if negb (hasNeighbor vs faceNormal facePosition) then
      mkScan (acc.(scan_voxels) ++ [voxel])
             (acc.(scan_faces)
              ++ [mkPlaneFace (Vec.copy facePosition) (Vec.copy faceNormal) voxel.(color)])
             (key :: acc.(processedPositions))
    else acc
  else acc.

Definition findVoxelsInSamePlane (vs : list Voxel) (pos normal_ : Vector3)
  : Selection :=
  let acc := fold_left (scanVoxel vs pos normal_) vs (mkScan [] [] []) in
  let facesInPlane := acc.(scan_faces) in
  let sum := fold_left (fun c face => Vec.add c face.(face_position)) facesInPlane Vec.new in
  let center :=
    if (0 <? List.length facesInPlane)%nat
    then Vec.divideScalar sum (JS.ofZ (Z.of_nat (List.length facesInPlane)))
    else Vec.new in
  mkSelection acc.(scan_voxels) center facesInPlane.

End World.

(** ** Sequences of store actions *)

Inductive Action : Type :=
| SetHoveredVoxel (voxel : option Voxel)
| SetSelectedFace (face : option Face)
| SetToolMode (mode : ToolMode)
| AddVoxel (voxel : Voxel)
| RemoveVoxel (pos : Vector3)
| PushPullFace (normal_ : Vector3) (distance : JS.number)
| ResetWorld.

Definition dispatch (fuel : nat) (a : Action) (state : StoreState) : option StoreState :=
  match a with
  | SetHoveredVoxel voxel => Some (setHoveredVoxel voxel state)
  | SetSelectedFace face => Some (setSelectedFace face state)
  | SetToolMode mode => Some (setToolMode mode state)
  | AddVoxel voxel => Some (addVoxel voxel state)
  | RemoveVoxel pos => Some (removeVoxel pos state)
  | PushPullFace normal_ distance => pushPullFace fuel normal_ distance state
  | ResetWorld => Some (resetWorld state)
  end.

Fixpoint run (fuel : nat) (acts : list Action) (state : StoreState) : option StoreState :=
  match acts with
  | [] => Some state
  | a :: acts' =>
      match dispatch fuel a state with
      | Some state' => run fuel acts' state'
      | None => None
      end
  end.

(** Pointing at the face with normal [n] of the voxel at [p]: what
    handlePointerEnter stores before a push-pull. *)
Definition pointAt (p n : Vector3) (c : string) (state : StoreState) : StoreState :=
  setSelectedFace (Some (mkFace n)) (setHoveredVoxel (Some (mkVoxel p c)) state).

(** ** The notions the properties are stated with *)

Section Notions.

Local Open Scope float_scope.

(** Two positions in the same grid cell: snapped as checkGridSnapping
    snaps a hit voxel, they agree on every coordinate within the 0.01
    of the occupancy tests. *)
Definition sameCell (p q : Vector3) : bool := within (snap p) (snap q).

(** No voxel of the list shares its cell with a later one. *)
Fixpoint cellUnique (l : list Voxel) : bool :=
  match l with
  | [] => true
  | v :: l' =>
      negb (existsb (fun w => sameCell v.(position) w.(position)) l') && cellUnique l'
  end.

(** No voxel of the list has exactly the position of a later one. *)
Fixpoint positionUnique (l : list Voxel) : bool :=
  match l with
  | [] => true
  | v :: l' =>
      negb (existsb (fun w => isSamePosition v.(position) w.(position)) l')
      && positionUnique l'
  end.

(** The number of voxels at a position, as the store compares them. *)
Definition countAt (p : Vector3) (l : list Voxel) : nat :=
  List.length (filter (fun v => isSamePosition v.(position) p) l).

(** An action that is not an outward push. *)
Definition notOutward (a : Action) : Prop :=
  match a with
  | PushPullFace _ distance => JS.gt (quantize distance) 0 = false
  | _ => True
  end.

(** The key findVoxelsInSamePlane prints for a voxel. *)
Definition voxelKey (n : Vector3) (v : Voxel) : list JS.fixedText :=
  posKey (Vec.copy (position v)) (Vec.copy n).

(** The two conditions of membership: on the plane, and no voxel on
    the other side of the face. *)
Definition exposedOnPlane (vs : list Voxel) (n p : Vector3) (v : Voxel) : Prop :=
  onPlane n p (position v) = true /\ hasNeighbor vs n (position v) = false.

Definition up : Vector3 := mkVector3 0 1 0.

(** The face findVoxelsInSamePlane lists for a voxel. *)
Definition faceOf (n : Vector3) (v : Voxel) : PlaneFace :=
  mkPlaneFace (position v) n (color v).

(** The platform with a fifth voxel a thousandth beside the origin,
    as [addVoxel] makes it. *)
Definition crowded : list Voxel :=
  voxels (addVoxel (mkVoxel (mkVector3 0.001 0 0) "#1e88e5") initialState).

(** A platform voxel moved to height [h]. *)
Definition raised (h : JS.number) (v : Voxel) : Voxel :=
  mkVoxel (mkVector3 v.(position).(x) h v.(position).(z)) v.(color).

(** The initial state with the top face of the voxel at the origin
    pointed at. *)
Definition pointedPlatform : StoreState :=
  pointAt (mkVector3 0 0 0) up "#1e88e5" initialState.

(** The platform pushed up by [k] layers, then the top face of the
    outermost layer pointed at and pulled by [k] layers: the state
    after the push and the state after the pull. *)
Definition pushThenPull (fuel : nat) (k : JS.number)
  : option (StoreState * StoreState) :=
  match pushPullFace fuel up (k * 0.3) pointedPlatform with
  | Some pushedState =>
      match pushPullFace fuel up (- (k * 0.3))
              (pointAt (mkVector3 0 (k * 0.3) 0) up "#1e88e5" pushedState) with
      | Some pulledState => Some (pushedState, pulledState)
      | None => None
      end
  | None => None
  end.

End Notions.

(** ** Further notions *)

Section MoreNotions.

Local Open Scope float_scope.

(** The six unit vectors of the axes. *)
Definition axes : list Vector3 :=
  [ mkVector3 1 0 0; mkVector3 (-1) 0 0;
    mkVector3 0 1 0; mkVector3 0 (-1) 0;
    mkVector3 0 0 1; mkVector3 0 0 (-1) ].

(** A position with a NaN coordinate. *)
Definition hasNaN (p : Vector3) : bool :=
  is_nan p.(x) || is_nan p.(y) || is_nan p.(z).

(** The store actions that write the voxel list; the others are the
    three setters. *)
Definition writesVoxels (a : Action) : bool :=
  match a with
  | AddVoxel _ | RemoveVoxel _ | PushPullFace _ _ | ResetWorld => true
  | _ => false
  end.

(** No member of the list prints the key of a later one. *)
Fixpoint keysDistinct (n : Vector3) (l : list Voxel) : bool :=
  match l with
  | [] => true
  | a :: l' =>
      negb (existsb (fun b => posKey_eqb (voxelKey n a) (voxelKey n b)) l')
      && keysDistinct n l'
  end.

(** What the loop of findVoxelsInSamePlane keeps true of its three
    lists. *)
Definition scanInv (n : Vector3) (acc : Scan) : Prop :=
  scan_faces acc = map (faceOf n) (scan_voxels acc)
  /\ processedPositions acc = rev (map (voxelKey n) (scan_voxels acc))
  /\ keysDistinct n (scan_voxels acc) = true.

(** No voxel of the list is within 0.01 of a later one on every
    coordinate. *)
Fixpoint farApart (l : list Voxel) : bool :=
  match l with
  | [] => true
  | v :: l' =>
      negb (existsb (fun w => within v.(position) w.(position)) l') && farApart l'
  end.

End MoreNotions.

(** ** The first store (the pushPullFace that copies every voxel) *)

Section FirstStore.

Local Open Scope float_scope.

(** The copy of a voxel moved by [normal * normalizedDistance]. *)
Definition movedCopy (normal_ : Vector3) (normalizedDistance : JS.number)
           (voxel : Voxel) : Voxel :=
  mkVoxel (Vec.add (Vec.copy voxel.(position))
                   (Vec.multiplyScalar (Vec.copy normal_) normalizedDistance))
          voxel.(color).

(** [combinedVoxels.push(newVoxel)] unless a voxel of [combinedVoxels]
    has its position. *)
Definition pushIfAbsent (combinedVoxels : list Voxel) (newVoxel : Voxel) : list Voxel :=
  let exists_ :=
    existsb (fun v => isSamePosition v.(position) newVoxel.(position)) combinedVoxels in
  if negb exists_ then combinedVoxels ++ [newVoxel] else combinedVoxels.

(** The pushPullFace of the store as first written: every voxel is
    copied along the normal argument, and a copy is kept when its
    position is not taken yet. *)
Definition pushPullFace_simple (normal_ : Vector3) (distance : JS.number)
           (state : StoreState) : StoreState :=
  let normalizedDistance := quantize distance in
  if JS.strictEq normalizedDistance 0 then state
  else
    let newVoxels := map (movedCopy normal_ normalizedDistance) state.(voxels) in
    let combinedVoxels := fold_left pushIfAbsent newVoxels state.(voxels) in
    set_voxels state combinedVoxels.

End FirstStore.

(** ** The handlers of components/VoxelWorld.tsx and components/Voxel.tsx

    A handler reads the voxel list of the render it was made in (the
    [voxels] of its closure, here [snapshot]) and writes to the store
    through addVoxel and removeVoxel, each of which acts on the state
    the call before it left. *)

(** VoxelWorld's push-pull state. *)
Record PushPullStateType : Type := mkPushPullState {
  active : bool;
  startPosition : Vector3;
  pp_normal : Vector3;
  pp_distance : JS.number;
  faceCenter : Vector3;
  selectedVoxels : list Voxel;
  highlightedFaces : list PlaneFace
}.

(** The hovered position and normal VoxelWorld keeps ([localHovered]). *)
Record Hover : Type := mkHover { hover_position : Vector3; hover_normal : Vector3 }.

Section Handlers.

Local Open Scope float_scope.

Definition ToolMode_eqb (m1 m2 : ToolMode) : bool :=
  match m1, m2 with
  | mode_add, mode_add | mode_remove, mode_remove | mode_pushpull, mode_pushpull => true
  | _, _ => false
  end.

(** [selected.forEach(voxel => { for (let i = 1; i <= steps; i++) body })]
    on a state [A]: the loop of each voxel is run with fuel, and one
    that has not ended leaves no result. *)
Definition forEachLayer {A : Type} (fuel : nat) (steps : JS.number)
           (selected : list Voxel) (body : Voxel -> JS.number -> A -> A) (acc : A)
  : option A :=
  fold_left
    (fun (r : option A) (voxel : Voxel) =>
       match r with
       | None => None
       | Some a =>
           match JS.forUpTo fuel 1 steps with
           | None => None
           | Some layers => Some (fold_left (fun a' i => body voxel i a') layers a)
           end
       end)
    selected (Some acc).

(** One turn of the outward loop of VoxelWorld's pushPullFace. *)
Definition pushLayer (snapshot : list Voxel) (normal_ : Vector3)
           (voxel : Voxel) (i : JS.number) (state : StoreState) : StoreState :=
  let newPos :=
    Vec.add (Vec.copy voxel.(position))
            (Vec.multiplyScalar (Vec.copy normal_) (i * 0.3)) in
  let hasVoxel := existsb (fun v => within v.(position) newPos) snapshot in
  if negb hasVoxel then addVoxel (mkVoxel newPos voxel.(color)) state else state.

(** One turn of the inward loop of VoxelWorld's pushPullFace. *)
Definition pullLayer (snapshot : list Voxel) (normal_ : Vector3)
           (voxel : Voxel) (i : JS.number) (state : StoreState) : StoreState :=
  let checkPos :=
    Vec.add (Vec.copy voxel.(position))
            (Vec.multiplyScalar (Vec.copy normal_) (- i * 0.3)) in
  fold_left
    (fun st existingVoxel =>
       if within existingVoxel.(position) checkPos
       then removeVoxel existingVoxel.(position) st
       else st)
    snapshot state.

(** VoxelWorld's own pushPullFace, on the voxels [selected] of its
    push-pull state.  Its timer, which sets the distance of the
    push-pull state back to zero, and its log do not touch the store. *)
Definition worldPushPullFace (fuel : nat) (snapshot selected : list Voxel)
           (normal_ : Vector3) (distance : JS.number) (state : StoreState)
  : option StoreState :=
  if JS.lt (JS.Math_abs distance) 0.01 then Some state
  else
    let steps := JS.Math_round (JS.Math_abs distance / 0.3) in
    if JS.gt distance 0 then
      forEachLayer fuel steps selected (pushLayer snapshot normal_) state
    else if JS.lt distance 0 then
      forEachLayer fuel steps selected (pullLayer snapshot normal_) state
    else Some state.

(** A run of removeVoxel calls, and a run of addVoxel calls. *)
Definition removeAll (marks : list Vector3) (state : StoreState) : StoreState :=
  fold_left (fun st p => removeVoxel p st) marks state.

Definition addAll (staged : list Voxel) (state : StoreState) : StoreState :=
  fold_left (fun st c => addVoxel c st) staged state.

(** handleMouseUp: the push-pull is carried out when it is active and
    its distance is above 0.01 in magnitude; otherwise only the
    distance of the push-pull state is reset. *)
Definition handleMouseUp (fuel : nat) (pushPullState : PushPullStateType)
           (snapshot : list Voxel) (state : StoreState) : option StoreState :=
  if pushPullState.(active)
     && JS.gt (JS.Math_abs pushPullState.(pp_distance)) 0.01
  then worldPushPullFace fuel snapshot pushPullState.(selectedVoxels)
                         pushPullState.(pp_normal) pushPullState.(pp_distance) state
  else Some state.

(** The push-pull state VoxelWorld starts with and goes back to on
    Escape. *)
Definition idlePushPull : PushPullStateType :=
  mkPushPullState false Vec.new Vec.new 0 Vec.new [] [].

(** updatePushPullDistance *)
Definition updatePushPullDistance (newDistance : JS.number)
           (prev : PushPullStateType) : PushPullStateType :=
  let adjustedDistance := quantize newDistance in
  if JS.strictEq adjustedDistance prev.(pp_distance) then prev
  else mkPushPullState prev.(active) prev.(startPosition) prev.(pp_normal)
                       adjustedDistance prev.(faceCenter) prev.(selectedVoxels)
                       prev.(highlightedFaces).

(** The push-pull state handleMouseDown sets when it finds a group on
    the hovered face; [start] is the pointer position.  With an empty
    group, or while a push-pull is active, the state stays. *)
Definition handleMouseDown (start : Vector3) (localHovered : option Hover)
           (snapshot : list Voxel) (toolMode_ : ToolMode)
           (pushPullState : PushPullStateType) : PushPullStateType :=
  match localHovered with
  | Some hovered =>
      if ToolMode_eqb toolMode_ mode_pushpull then
        if pushPullState.(active) then pushPullState
        else
          let normal_ := Vec.copy hovered.(hover_normal) in
          let position_ := Vec.copy hovered.(hover_position) in
          let found := findVoxelsInSamePlane snapshot position_ normal_ in
          if (0 <? List.length found.(sel_voxels))%nat then
            mkPushPullState true start normal_ 0 found.(center)
              (map (fun v => mkVoxel (Vec.copy v.(position)) v.(color)) found.(sel_voxels))
              found.(faces)
          else pushPullState
      else pushPullState
  | None => pushPullState
  end.

(** handleSceneClick: in add mode with a preview voxel, a voxel of the
    default colour is added at the preview position unless a voxel of
    the snapshot is within 0.01 of it. *)
Definition handleSceneClick (tempVoxel : option Voxel) (snapshot : list Voxel)
           (state : StoreState) : StoreState :=
  match tempVoxel with
  | Some temp =>
      if ToolMode_eqb state.(toolMode) mode_add then
        let exists_ :=
          existsb (fun voxel => within voxel.(position) temp.(position)) snapshot in
        if negb exists_
        then addVoxel (mkVoxel (Vec.copy temp.(position)) "#1e88e5") state
        else state
      else state
  | None => state
  end.

(** The handleClick of a Voxel at [pos]: in remove mode a placed voxel
    (not a preview) is removed. *)
Definition voxelHandleClick (isPreview : bool) (pos : Vector3)
           (state : StoreState) : StoreState :=
  if ToolMode_eqb state.(toolMode) mode_remove && negb isPreview
  then removeVoxel pos state
  else state.

End Handlers.

(** ** Sequences of pointer events *)

Inductive UIEvent : Type :=
| SceneClick (tempVoxel : option Voxel)
| VoxelClick (isPreview : bool) (pos : Vector3)
| ToolButton (mode : ToolMode)
| ResetButton
| MouseUp (pushPullState : PushPullStateType).

(** An event on the store, its handler reading the voxels of the
    current state. *)
Definition uiDispatch (fuel : nat) (e : UIEvent) (state : StoreState)
  : option StoreState :=
  match e with
  | SceneClick tempVoxel => Some (handleSceneClick tempVoxel state.(voxels) state)
  | VoxelClick isPreview pos => Some (voxelHandleClick isPreview pos state)
  | ToolButton mode => Some (setToolMode mode state)
  | ResetButton => Some (resetWorld state)
  | MouseUp pushPullState => handleMouseUp fuel pushPullState state.(voxels) state
  end.

Fixpoint uiRun (fuel : nat) (events : list UIEvent) (state : StoreState)
  : option StoreState :=
  match events with
  | [] => Some state
  | e :: events' =>
      match uiDispatch fuel e state with
      | Some state' => uiRun fuel events' state'
      | None => None
      end
  end.

(** A release that does not push outward. *)
Definition notOutwardEvent (e : UIEvent) : Prop :=
  match e with
  | MouseUp pushPullState => JS.gt pushPullState.(pp_distance) 0%float = false
  | _ => True
  end.

(** ** The keyboard shortcuts of App *)

Record KeyboardEvent : Type := mkKeyboardEvent { key : string; altKey : bool }.

(** App's handleKeyDown: a letter picks its tool, and a pressed Alt
    picks the remove tool after that. *)
Definition appHandleKeyDown (e : KeyboardEvent) (state : StoreState) : StoreState :=
  let state1 :=
    if (String.eqb e.(key) "a" || String.eqb e.(key) "A")%bool
    then setToolMode mode_add state
    else if (String.eqb e.(key) "d" || String.eqb e.(key) "D")%bool
    then setToolMode mode_remove state
    else if (String.eqb e.(key) "p" || String.eqb e.(key) "P")%bool
    then setToolMode mode_pushpull state
    else state in
  if e.(altKey) then setToolMode mode_remove state1 else state1.

(** App's handleKeyUp: releasing Alt picks the add tool. *)
Definition appHandleKeyUp (e : KeyboardEvent) (state : StoreState) : StoreState :=
  if String.eqb e.(key) "Alt" then setToolMode mode_add state else state.

(** * Properties *)

(** ** Comparisons of binary64 numbers *)

Section Numbers.

Local Open Scope float_scope.

(** [Math.round] rounds a tie up, towards plus infinity, and keeps
    the sign of a zero result. *)
Example Math_round_ties :
  JS.Math_round 2.5 = 3 /\ JS.Math_round (-2.5) = -2
  /\ JS.Math_round 0.49999999999999994 = 0
  /\ JS.Math_round (-0.5) = -0
  /\ JS.Math_round (0.9 / 0.3) = 3
  /\ JS.Math_round (-1.5000000000000002) = -2.
Proof. vm_compute. repeat split; reflexivity. Qed.

(** [toFixed(2)] on a few numbers: "0.30", "1.00" (1.005 is below the
    tie as a binary64 number), "-0.00", "0.00" and "123.46". *)
Example toFixed_digits :
  JS.toFixed 2 0.3 = JS.FixedDigits false 30
  /\ JS.toFixed 2 1.005 = JS.FixedDigits false 100
  /\ JS.toFixed 2 (-0.001) = JS.FixedDigits true 0
  /\ JS.toFixed 2 (-0) = JS.FixedDigits false 0
  /\ JS.toFixed 2 123.456 = JS.FixedDigits false 12346.
Proof. vm_compute. repeat split; reflexivity. Qed.

Lemma SFcompare_antisym (a b : spec_float) :
  SFcompare b a = option_map CompOpp (SFcompare a b).
Proof.
  destruct a as [s1|s1| |s1 m1 e1], b as [s2|s2| |s2 m2 e2]; simpl;
    try destruct s1; try destruct s2; try reflexivity;
    rewrite (Z.compare_antisym e1 e2); destruct (e1 ?= e2)%Z; simpl;
    try reflexivity;
    rewrite (Pos.compare_cont_antisym m1 m2 Eq); reflexivity.
Qed.

Lemma ltb_asym (a b : float) : (a <? b) = true -> (b <? a) = false.
Proof.
  rewrite !FloatAxioms.ltb_spec. unfold SFltb.
  rewrite (SFcompare_antisym (Prim2SF a) (Prim2SF b)).
  destruct (SFcompare (Prim2SF a) (Prim2SF b)) as [[ | | ]|]; simpl; congruence.
Qed.

Lemma eqb_not_lt (a b : float) : (a =? b) = true -> (a <? b) = false.
Proof.
  rewrite FloatAxioms.eqb_spec, FloatAxioms.ltb_spec. unfold SFeqb, SFltb.
  destruct (SFcompare (Prim2SF a) (Prim2SF b)) as [[ | | ]|]; simpl; congruence.
Qed.

Lemma leb_not_gt (a b : float) : (a <=? b) = true -> (b <? a) = false.
Proof.
  rewrite FloatAxioms.leb_spec, FloatAxioms.ltb_spec. unfold SFleb, SFltb.
  rewrite (SFcompare_antisym (Prim2SF a) (Prim2SF b)).
  destruct (SFcompare (Prim2SF a) (Prim2SF b)) as [[ | | ]|]; simpl; congruence.
Qed.

Lemma eqb_zero_inv (r : float) :
  (r =? 0) = true -> exists s, Prim2SF r = S754_zero s.
Proof.
  rewrite FloatAxioms.eqb_spec. unfold SFeqb.
  change (Prim2SF 0) with (S754_zero false).
  destruct (Prim2SF r) as [s|s| |s m e]; simpl; try destruct s; try discriminate.
  - intros _. now exists true.
  - intros _. now exists false.
Qed.

(** A zero times the grid unit is a zero. *)
Lemma zero_times_unit (r : float) : (r =? 0) = true -> (r * 0.3 =? 0) = true.
Proof.
  intros H. destruct (eqb_zero_inv r H) as [s Hs].
  rewrite FloatAxioms.eqb_spec, FloatAxioms.mul_spec, Hs.
  destruct s; vm_compute; reflexivity.
Qed.

(** A number whose magnitude exceeds another magnitude is not zero:
    it is above zero or below it. *)
Lemma abs_gt_sign (a b : float) :
  (abs b <? abs a) = true -> (0 <? a) = true \/ (a <? 0) = true.
Proof.
  rewrite !FloatAxioms.ltb_spec, !FloatAxioms.abs_spec.
  change (Prim2SF 0) with (S754_zero false).
  destruct (Prim2SF a) as [sa|sa| |sa ma ea], (Prim2SF b) as [sb|sb| |sb mb eb];
    simpl; try destruct sa; try destruct sb; simpl; intros H;
    try discriminate; (left; reflexivity) || (right; reflexivity).
Qed.

End Numbers.

(** ** Lists *)

Section Lists.

Context {A : Type}.

Lemma filter_all (l : list A) : filter (fun _ => true) l = l.
Proof. induction l as [|a l IH]; simpl; congruence. Qed.

Lemma existsb_false_In (f : A -> bool) (l : list A) :
  existsb f l = false <-> (forall a, In a l -> f a = false).
Proof.
  induction l as [|a l IH]; simpl.
  - split; [intros _ b []|reflexivity].
  - rewrite orb_false_iff, IH. split.
    + intros [Ha Hl] b [<-|Hb]; auto.
    + intros H. split; [apply H; now left|intros b Hb; apply H; now right].
Qed.

Lemma existsb_filter_false (f g : A -> bool) (l : list A) :
  existsb f l = false -> existsb f (filter g l) = false.
Proof.
  rewrite !existsb_false_In. intros H a Ha.
  apply filter_In in Ha. apply H, Ha.
Qed.

End Lists.

Lemma set_voxels_same (s : StoreState) : set_voxels s (voxels s) = s.
Proof. now destruct s. Qed.

(** ** The shape of a push-pull result *)

Section PushPull.

Local Open Scope float_scope.

(** A staged voxel lies where no voxel of the checked list lies, has
    the colour of its face voxel and sits on one of its layers. *)
Lemma pushed_spec (upd : list Voxel) (n : Vector3) (layers : list JS.number)
      (v nv : Voxel) :
  In nv (pushed upd n layers v) ->
  existsb (fun w => within (position w) (position nv)) upd = false
  /\ color nv = color v
  /\ exists i, In i layers
             /\ position nv
                = Vec.add (Vec.copy (position v))
                          (Vec.multiplyScalar (Vec.copy n) (i * 0.3)).
Proof.
  unfold pushed. rewrite in_flat_map. intros [i [Hi Hnv]].
  destruct (existsb _ upd) eqn:E; simpl in Hnv; [contradiction|].
  destruct Hnv as [<-|[]]. simpl. repeat split; eauto.
Qed.

(** What a call that returns has done: nothing, an outward push that
    appended the staged voxels, or an inward pull that filtered the
    list. *)
Lemma pushPullFace_cases (fuel : nat) (n : Vector3) (d : JS.number)
      (s s' : StoreState) :
  pushPullFace fuel n d s = Some s' ->
  s' = s
  \/ (JS.gt (quantize d) 0 = true
      /\ exists f h layers,
          selectedFace s = Some f /\ hoveredVoxel s = Some h
          /\ s' = set_voxels s
                   (voxels s
                    ++ flat_map (pushed (voxels s) (normal f) layers)
                         (voxelsInPlane (voxels s) (normal f) (position h))))
  \/ (JS.gt (quantize d) 0 = false /\ JS.lt (quantize d) 0 = true
      /\ exists keep, s' = set_voxels s (filter keep (voxels s))).
Proof.
  unfold pushPullFace.
  destruct (JS.strictEq (quantize d) 0); [intros [= <-]; now left|].
  destruct (selectedFace s) as [f|] eqn:Hf; [|intros [= <-]; now left].
  destruct (hoveredVoxel s) as [h|] eqn:Hh; [|intros [= <-]; now left].
  destruct (List.length _ =? 0)%nat; [intros [= <-]; now left|].
  destruct (JS.gt (quantize d) 0) eqn:Hgt.
  - destruct (JS.forUpTo fuel 1 _) as [layers|]; [|discriminate].
    intros [= <-]. right; left. split; [reflexivity|].
    exists f, h, layers. repeat split.
  - destruct (JS.lt (quantize d) 0) eqn:Hlt.
    + destruct (JS.forUpTo fuel 1 _) as [layers|]; [|discriminate].
      destruct (0 <? List.length _)%nat; intros [= <-].
      * right; right. repeat split. eexists. reflexivity.
      * left. apply set_voxels_same.
    + intros [= <-]. left. apply set_voxels_same.
Qed.

(** A position is marked by the inward branch exactly when it prints
    like the position of a voxel found, within 0.01, at some layer
    behind a face voxel. *)
Lemma has_pulled (vs group : list Voxel) (n : Vector3) (layers : list JS.number)
      (p : Vector3) :
  has (flat_map (pulled vs n layers) group) p = true
  <-> exists v i e,
      In v group /\ In i layers /\ In e vs
      /\ within (position e)
                (Vec.add (Vec.copy (position v))
                         (Vec.multiplyScalar (Vec.copy n) (- i * 0.3))) = true
      /\ samePosKey (position e) p = true.
Proof.
  unfold has. rewrite existsb_exists. split.
  - intros [k [Hk Hkey]].
    apply in_flat_map in Hk. destruct Hk as [v [Hv Hk]].
    unfold pulled in Hk. apply in_flat_map in Hk. destruct Hk as [i [Hi Hk]].
    apply in_map_iff in Hk. destruct Hk as [e [<- He]].
    apply filter_In in He. destruct He as [He Hw].
    exists v, i, e. auto.
  - intros (v & i & e & Hv & Hi & He & Hw & Hkey).
    exists (position e). split; [|exact Hkey].
    apply in_flat_map. exists v. split; [exact Hv|].
    unfold pulled. apply in_flat_map. exists i. split; [exact Hi|].
    apply in_map. apply filter_In. auto.
Qed.

(** What an inward pull that returns has removed. *)
Lemma pushPullFace_pull (fuel : nat) (n : Vector3) (d : JS.number)
      (s s' : StoreState) (f : Face) (h : Voxel) (layers : list JS.number) :
  pushPullFace fuel n d s = Some s' ->
  JS.lt (quantize d) 0 = true ->
  selectedFace s = Some f ->
  hoveredVoxel s = Some h ->
  JS.forUpTo fuel 1 (JS.Math_round (JS.Math_abs (quantize d) / 0.3)) = Some layers ->
  voxels s'
  = filter (fun w =>
              negb (has (flat_map (pulled (voxels s) (normal f) layers)
                           (voxelsInPlane (voxels s) (normal f) (position h)))
                        (position w)))
           (voxels s).
Proof.
  intros H Hlt Hf Hh Hlayers. unfold pushPullFace in H.
  unfold JS.strictEq, JS.gt, JS.lt in *.
  destruct (quantize d =? 0) eqn:Hz.
  { rewrite (eqb_not_lt _ _ Hz) in Hlt. discriminate. }
  rewrite Hf, Hh in H. cbv beta iota zeta in H.
  remember (voxelsInPlane (voxels s) (normal f) (position h)) as group eqn:Hgroup.
  destruct (List.length group =? 0)%nat eqn:Hlen.
  { apply Nat.eqb_eq, length_zero_iff_nil in Hlen. rewrite Hlen.
    assert (s' = s) as -> by congruence.
    simpl. symmetry. apply filter_all. }
  destruct (0 <? quantize d) eqn:Hgt.
  { rewrite (ltb_asym _ _ Hgt) in Hlt. discriminate. }
  rewrite Hlt, Hlayers in H.
  remember (flat_map (pulled (voxels s) (normal f) layers) group) as marks eqn:Hmarks.
  destruct marks as [|k marks].
  - simpl in H. assert (s' = set_voxels s (voxels s)) as -> by congruence.
    simpl. symmetry. apply filter_all.
  - simpl in H. injection H as <-. reflexivity.
Qed.

(** More fuel does not change what a loop or a call returns. *)
Lemma forUpTo_fuel_mono (fuel : nat) :
  forall (fuel' : nat) (i steps : JS.number) (l : list JS.number),
    JS.forUpTo fuel i steps = Some l ->
    (fuel <= fuel')%nat ->
    JS.forUpTo fuel' i steps = Some l.
Proof.
  induction fuel as [|fuel IH]; intros fuel' i steps l H Hle; simpl in H.
  - discriminate.
  - destruct fuel' as [|fuel']; [lia|]. simpl.
    destruct (i <=? steps); [|exact H].
    destruct (JS.forUpTo fuel (i + 1) steps) as [l'|] eqn:E; [|discriminate].
    rewrite (IH fuel' _ _ _ E); [exact H|lia].
Qed.

Lemma pushPullFace_fuel_mono (fuel fuel' : nat) (n : Vector3) (d : JS.number)
      (s s' : StoreState) :
  pushPullFace fuel n d s = Some s' ->
  (fuel <= fuel')%nat ->
  pushPullFace fuel' n d s = Some s'.
Proof.
  unfold pushPullFace. intros H Hle.
  destruct (JS.strictEq (quantize d) 0); [exact H|].
  destruct (selectedFace s) as [f|]; [|exact H].
  destruct (hoveredVoxel s) as [h|]; [|exact H].
  destruct (List.length _ =? 0)%nat; [exact H|].
  destruct (JS.gt (quantize d) 0).
  - destruct (JS.forUpTo fuel 1 _) as [layers|] eqn:E; [|discriminate].
    now rewrite (forUpTo_fuel_mono _ _ _ _ _ E Hle).
  - destruct (JS.lt (quantize d) 0); [|exact H].
    destruct (JS.forUpTo fuel 1 _) as [layers|] eqn:E; [|discriminate].
    now rewrite (forUpTo_fuel_mono _ _ _ _ _ E Hle).
Qed.

End PushPull.

(** ** addVoxel *)

Section AddVoxel.

Local Open Scope float_scope.

Lemma isSamePosition_false_iff (a b : Vector3) :
  isSamePosition a b = false
  <-> JS.strictEq (x a) (x b) = false \/ JS.strictEq (y a) (y b) = false
      \/ JS.strictEq (z a) (z b) = false.
Proof.
  unfold isSamePosition. rewrite !andb_false_iff. tauto.
Qed.

Lemma addVoxel_free (s : StoreState) (v : Voxel) :
  existsb (fun w => isSamePosition (position w) (position v)) (voxels s) = false ->
  addVoxel v s
  = set_voxels s
      (voxels s
       ++ [mkVoxel (mkVector3 (x (position v)) (y (position v)) (z (position v)))
                   (color v)]).
Proof. unfold addVoxel. now intros ->. Qed.

Lemma addVoxel_occupied (s : StoreState) (v : Voxel) :
  existsb (fun w => isSamePosition (position w) (position v)) (voxels s) = true ->
  addVoxel v s = s.
Proof. unfold addVoxel. now intros ->. Qed.

Lemma countAt_none (p : Vector3) (l : list Voxel) :
  existsb (fun w => isSamePosition (position w) p) l = false -> countAt p l = 0%nat.
Proof.
  unfold countAt. induction l as [|a l IH]; simpl; [reflexivity|].
  rewrite orb_false_iff. intros [-> Hl]. auto.
Qed.

Lemma countAt_app (p : Vector3) (l1 l2 : list Voxel) :
  countAt p (l1 ++ l2) = (countAt p l1 + countAt p l2)%nat.
Proof. unfold countAt. now rewrite filter_app, length_app. Qed.

(** C10. addVoxel looks for a stored voxel with [isSamePosition],
    that is with [===] on each coordinate, and not within the 0.01 of
    the other occupancy tests: when the position of a voxel differs
    from every stored position in at least one coordinate, by however
    little, the voxel list of the state addVoxel returns is the old
    list followed by the new voxel, with a copy of its position and
    its colour.  The list is one longer, the new voxel is in it, and
    the hovered voxel, the selected face and the tool are as before. *)
Theorem addVoxel_exact_equality (s : StoreState) (v : Voxel) :
  (forall w, In w (voxels s) ->
             JS.strictEq (x (position w)) (x (position v)) = false
             \/ JS.strictEq (y (position w)) (y (position v)) = false
             \/ JS.strictEq (z (position w)) (z (position v)) = false) ->
  voxels (addVoxel v s)
  = voxels s
    ++ [mkVoxel (mkVector3 (x (position v)) (y (position v)) (z (position v)))
                (color v)]
  /\ List.length (voxels (addVoxel v s)) = S (List.length (voxels s))
  /\ In (mkVoxel (mkVector3 (x (position v)) (y (position v)) (z (position v)))
                 (color v))
        (voxels (addVoxel v s))
  /\ hoveredVoxel (addVoxel v s) = hoveredVoxel s
  /\ selectedFace (addVoxel v s) = selectedFace s
  /\ toolMode (addVoxel v s) = toolMode s.
Proof.
  intros H.
  assert (Hfree : existsb (fun w => isSamePosition (position w) (position v))
                          (voxels s) = false).
  { apply existsb_false_In. intros w Hw. apply isSamePosition_false_iff. auto. }
  rewrite (addVoxel_free s v Hfree). cbn [set_voxels voxels hoveredVoxel selectedFace toolMode].
  split; [reflexivity|].
  split; [rewrite length_app; simpl; lia|].
  split; [apply in_or_app; right; left; reflexivity|].
  split; [reflexivity|]. split; reflexivity.
Qed.

(** A voxel 0.005 away from the platform voxel at the origin, well
    within 0.01 of it, is added to the platform: five voxels are
    stored afterwards. *)
Lemma addVoxel_exact_equality_witness :
  let v := mkVoxel (mkVector3 0.005 0 0) "#1e88e5" in
  within (mkVector3 0 0 0) (position v) = true
  /\ voxels (addVoxel v initialState) = platform ++ [v]
  /\ List.length (voxels (addVoxel v initialState)) = 5%nat.
Proof.
  assert (H := addVoxel_exact_equality initialState
                 (mkVoxel (mkVector3 0.005 0 0) "#1e88e5")).
  split; [vm_compute; reflexivity|].
  destruct H as (Hv & Hl & _).
  - intros w Hw. simpl in Hw.
    destruct Hw as [<-|[<-|[<-|[<-|[]]]]]; left; vm_compute; reflexivity.
  - split; [exact Hv | exact Hl].
Defined.

(** C5, as the code has it.  When [isSamePosition] finds a stored
    voxel at the position, addVoxel returns the state it was given:
    nothing is changed, and nothing is reported either, addVoxel
    returning no value.  When no stored voxel is at the position and
    no coordinate of it is NaN, a second addVoxel with the same voxel
    changes nothing more and exactly one voxel is at that position. *)
Theorem addVoxel_on_occupied (s : StoreState) (v : Voxel) :
  (existsb (fun w => isSamePosition (position w) (position v)) (voxels s) = true ->
   addVoxel v s = s)
  /\ (existsb (fun w => isSamePosition (position w) (position v)) (voxels s) = false ->
      isSamePosition (position v) (position v) = true ->
      addVoxel v (addVoxel v s) = addVoxel v s
      /\ countAt (position v) (voxels (addVoxel v (addVoxel v s))) = 1%nat).
Proof.
  split; [apply addVoxel_occupied|].
  intros Hfree Hnan.
  assert (Hocc : existsb (fun w => isSamePosition (position w) (position v))
                         (voxels (addVoxel v s)) = true).
  { rewrite (addVoxel_free s v Hfree). simpl.
    rewrite existsb_app. simpl.
    unfold isSamePosition in Hnan |- *. simpl. rewrite Hnan.
    now rewrite orb_true_r. }
  rewrite (addVoxel_occupied _ _ Hocc). split; [reflexivity|].
  rewrite (addVoxel_free s v Hfree). simpl.
  rewrite countAt_app, (countAt_none _ _ Hfree). unfold countAt. simpl.
  unfold isSamePosition in Hnan |- *. simpl. now rewrite Hnan.
Qed.

Lemma addVoxel_on_occupied_witness :
  addVoxel (mkVoxel (mkVector3 0 0 0) "#ffffff") initialState = initialState
  /\ countAt (mkVector3 0.3 0.3 0)
             (voxels (addVoxel (mkVoxel (mkVector3 0.3 0.3 0) "#ffffff")
                        (addVoxel (mkVoxel (mkVector3 0.3 0.3 0) "#ffffff")
                           initialState)))
     = 1%nat.
Proof.
  split.
  - apply (proj1 (addVoxel_on_occupied initialState
                    (mkVoxel (mkVector3 0 0 0) "#ffffff"))).
    vm_compute; reflexivity.
  - apply (proj2 (addVoxel_on_occupied initialState
                    (mkVoxel (mkVector3 0.3 0.3 0) "#ffffff")));
      vm_compute; reflexivity.
Defined.

(** C5 as it is worded fails on a position with a NaN coordinate:
    [NaN === NaN] is false, so the second addVoxel does not find the
    first voxel and appends a second one; two voxels were added with
    that position and the store counts none at it. *)
Lemma addVoxel_twice_nan :
  let v := mkVoxel (mkVector3 nan 0 0) "#1e88e5" in
  voxels (addVoxel v (addVoxel v initialState)) = platform ++ [v; v]
  /\ countAt (position v) (voxels (addVoxel v (addVoxel v initialState))) <> 1%nat.
Proof.
  split; [vm_compute; reflexivity|]. vm_compute. discriminate.
Qed.

End AddVoxel.

(** ** pushPullFace: the calls that change nothing *)

Section NoChange.

Local Open Scope float_scope.

(** C6. When the distance rounds to zero layers,
    [Math.round(distance / 0.3)] being zero, pushPullFace returns the
    state it was given, whatever the selection and the voxels are:
    the call ends, with no change and no error. *)
Theorem pushPullFace_zero_distance (fuel : nat) (n : Vector3) (d : JS.number)
        (s : StoreState) :
  JS.strictEq (JS.Math_round (d / 0.3)) 0 = true ->
  pushPullFace fuel n d s = Some s.
Proof.
  intros H. unfold pushPullFace, quantize.
  unfold JS.strictEq in H |- *. now rewrite (zero_times_unit _ H).
Qed.

Lemma pushPullFace_zero_distance_witness :
  JS.strictEq (JS.Math_round (0.14 / 0.3)) 0 = true
  /\ pushPullFace 0 up 0.14 (pointAt (mkVector3 0 0 0) up "#1e88e5" initialState)
     = Some (pointAt (mkVector3 0 0 0) up "#1e88e5" initialState)
  /\ pushPullFace 0 up (-0.14) initialState = Some initialState.
Proof.
  split; [vm_compute; reflexivity|]. split.
  - apply pushPullFace_zero_distance. vm_compute; reflexivity.
  - apply pushPullFace_zero_distance. vm_compute; reflexivity.
Defined.

(** C7. When no face is selected, or no voxel is hovered, or no voxel
    is in the plane of the hovered voxel with an exposed face, then
    pushPullFace returns the state it was given, for every
    distance. *)
Theorem pushPullFace_empty_selection (fuel : nat) (n : Vector3) (d : JS.number)
        (s : StoreState) :
  selectedFace s = None
  \/ hoveredVoxel s = None
  \/ (exists f h, selectedFace s = Some f /\ hoveredVoxel s = Some h
                  /\ voxelsInPlane (voxels s) (normal f) (position h) = []) ->
  pushPullFace fuel n d s = Some s.
Proof.
  intros H. unfold pushPullFace.
  destruct (JS.strictEq (quantize d) 0); [reflexivity|].
  destruct H as [H|[H|(f & h & Hf & Hh & Hv)]].
  - now rewrite H.
  - rewrite H. now destruct (selectedFace s).
  - now rewrite Hf, Hh, Hv.
Qed.

(** Nothing is selected in the initial state; and a voxel hovered
    from below the platform, at a height where no voxel is, selects
    nothing. *)
Lemma pushPullFace_empty_selection_witness :
  pushPullFace 0 up 0.3 initialState = Some initialState
  /\ pushPullFace 0 up 0.3 (pointAt (mkVector3 0 0.3 0) up "#1e88e5" initialState)
     = Some (pointAt (mkVector3 0 0.3 0) up "#1e88e5" initialState).
Proof.
  split.
  - apply pushPullFace_empty_selection. left. reflexivity.
  - apply pushPullFace_empty_selection. right; right.
    exists (mkFace up), (mkVoxel (mkVector3 0 0.3 0) "#1e88e5").
    split; [reflexivity|]. split; [reflexivity|]. vm_compute; reflexivity.
Defined.

(** C9. A call that returns with a positive quantised distance has
    only appended voxels: the list before the call is a prefix of the
    list after it, each voxel with its position and colour.  A call
    that returns with a negative quantised distance has only removed
    voxels: the list after the call is the list before it filtered,
    so that no voxel was added and those that stay are as they
    were. *)
Theorem pushPullFace_frame (fuel : nat) (n : Vector3) (d : JS.number)
        (s s' : StoreState) :
  pushPullFace fuel n d s = Some s' ->
  (JS.gt (quantize d) 0 = true ->
   exists newVoxels, voxels s' = voxels s ++ newVoxels)
  /\ (JS.lt (quantize d) 0 = true ->
      exists keep, voxels s' = filter keep (voxels s)).
Proof.
  intros H.
  destruct (pushPullFace_cases _ _ _ _ _ H)
    as [->|[(Hgt & f & h & layers & _ & _ & ->)|(Hgt & Hlt & keep & ->)]].
  - split; intros _.
    + exists []. now rewrite app_nil_r.
    + exists (fun _ => true). now rewrite filter_all.
  - split; intros H'.
    + eexists. reflexivity.
    + unfold JS.gt, JS.lt in *. rewrite (ltb_asym _ _ Hgt) in H'. discriminate.
  - split; intros H'.
    + congruence.
    + exists keep. reflexivity.
Qed.

End NoChange.

(** ** pushPullFace on the platform *)

Section Platform.

Local Open Scope float_scope.

(** C4. In the initial state with the top face (normal (0,1,0)) of a
    platform voxel pointed at, pushPullFace with distance 0.3, one
    layer, returns a state whose voxel list is the platform followed
    by four new voxels: one above each platform voxel at height 0.3,
    with the x and z and the colour of that voxel.  The state held
    four voxels before the call and the returned state holds eight;
    hovered voxel, selected face and tool are as before.  The
    argument [normal] of the call is not read. *)
Theorem pushPullFace_extrudes_platform (fuel : nat) (n : Vector3) (h : Voxel) :
  (2 <= fuel)%nat ->
  In h platform ->
  exists s',
    pushPullFace fuel n 0.3 (pointAt (position h) up (color h) initialState)
    = Some s'
    /\ voxels (pointAt (position h) up (color h) initialState) = platform
    /\ List.length (voxels (pointAt (position h) up (color h) initialState))
       = 4%nat
    /\ voxels s' = platform ++ map (raised 0.3) platform
    /\ List.length (voxels s') = 8%nat
    /\ Forall2 (fun v w => x (position w) = x (position v)
                           /\ y (position w) = 0.3
                           /\ z (position w) = z (position v)
                           /\ color w = color v)
               platform (skipn 4 (voxels s'))
    /\ hoveredVoxel s'
       = hoveredVoxel (pointAt (position h) up (color h) initialState)
    /\ selectedFace s'
       = selectedFace (pointAt (position h) up (color h) initialState)
    /\ toolMode s' = toolMode (pointAt (position h) up (color h) initialState).
Proof.
  intros Hfuel Hh.
  destruct fuel as [|[|fuel]]; [lia|lia|].
  exists (set_voxels (pointAt (position h) up (color h) initialState)
                     (platform ++ map (raised 0.3) platform)).
  split.
  { simpl in Hh. destruct Hh as [<-|[<-|[<-|[<-|[]]]]]; vm_compute; reflexivity. }
  cbn [set_voxels voxels hoveredVoxel selectedFace toolMode].
  split; [reflexivity|]. split; [reflexivity|].
  split; [reflexivity|]. split; [reflexivity|].
  split; [repeat constructor|].
  split; [reflexivity|]. split; reflexivity.
Qed.

Lemma pushPullFace_extrudes_platform_witness :
  exists s',
    pushPullFace 2 up 0.3 pointedPlatform = Some s'
    /\ voxels s' = platform ++ map (raised 0.3) platform
    /\ List.length (voxels pointedPlatform) = 4%nat
    /\ List.length (voxels s') = 8%nat.
Proof.
  destruct (pushPullFace_extrudes_platform 2 up
              (mkVoxel (mkVector3 0 0 0) "#1e88e5"))
    as (s' & Hrun & _ & Hfour & Hvoxels & Height & _).
  - lia.
  - simpl. left. reflexivity.
  - exists s'. split; [exact Hrun|].
    split; [exact Hvoxels|]. split; [exact Hfour | exact Height].
Defined.

(** C2 as it is worded fails.  After the platform is pushed up by one
    layer, a pull by one layer of the new top face removes the four
    platform voxels, which lie behind that face, and keeps the four
    voxels the push added: no cell of the platform is occupied
    afterwards.  And a pull issued at once, the platform voxel still
    being the hovered one, changes nothing, the platform having no
    exposed top face any more: eight voxels stay. *)
Lemma push_then_pull_loses_platform :
  option_map (fun p => voxels (snd p)) (pushThenPull 2 1)
  = Some (map (raised 0.3) platform)
  /\ forallb (fun v => negb (existsb (fun w => within (position w) (position v))
                                     (map (raised 0.3) platform))) platform = true
  /\ option_map (fun p => voxels (fst p)) (pushThenPull 2 1)
     = Some (platform ++ map (raised 0.3) platform)
  /\ pushPullFace 2 up (- 0.3)
       (set_voxels pointedPlatform (platform ++ map (raised 0.3) platform))
     = Some (set_voxels pointedPlatform (platform ++ map (raised 0.3) platform)).
Proof. repeat split; vm_compute; reflexivity. Qed.

(** C2, as the code has it.  A pull that returns removes the voxels
    that print the position of a voxel found, within 0.01, at
    [v.position - normal * (i * 0.3)] for a voxel [v] of the pulled face
    and a layer [i] of the loop, and no other voxel: it takes away what
    lies behind the face, not the face.  For k = 1, 2, 3 the platform
    pushed up by k layers and then pulled by k layers at its new top
    face is left with the four voxels of the outermost layer, at height
    k * 0.3, and with nothing else: the count is four again, the cells
    are not the platform's. *)
Theorem pull_removes_behind_face :
  (forall fuel n d s s' f h layers,
      pushPullFace fuel n d s = Some s' ->
      JS.lt (quantize d) 0 = true ->
      selectedFace s = Some f ->
      hoveredVoxel s = Some h ->
      JS.forUpTo fuel 1 (JS.Math_round (JS.Math_abs (quantize d) / 0.3)) = Some layers ->
      forall w,
        In w (voxels s')
        <-> In w (voxels s)
            /\ ~ (exists v i e,
                     In v (voxelsInPlane (voxels s) (normal f) (position h))
                     /\ In i layers /\ In e (voxels s)
                     /\ within (position e)
                               (Vec.add (Vec.copy (position v))
                                        (Vec.multiplyScalar (Vec.copy (normal f))
                                                            (- i * 0.3))) = true
                     /\ samePosKey (position e) (position w) = true))
  /\ (forall fuel,
         (4 <= fuel)%nat ->
         option_map (fun p => voxels (snd p)) (pushThenPull fuel 1)
         = Some (map (raised (1 * 0.3)) platform)
         /\ option_map (fun p => voxels (snd p)) (pushThenPull fuel 2)
            = Some (map (raised (2 * 0.3)) platform)
         /\ option_map (fun p => voxels (snd p)) (pushThenPull fuel 3)
            = Some (map (raised (3 * 0.3)) platform)
         /\ option_map (fun p => voxels (fst p)) (pushThenPull fuel 3)
            = Some (platform
                    ++ flat_map (fun v => [raised (1 * 0.3) v; raised (2 * 0.3) v;
                                           raised (3 * 0.3) v]) platform)).
Proof.
  split.
  - intros fuel n d s s' f h layers H Hlt Hf Hh Hlayers w.
    rewrite (pushPullFace_pull _ _ _ _ _ _ _ _ H Hlt Hf Hh Hlayers).
    rewrite filter_In, negb_true_iff, <- has_pulled.
    destruct (has _ (position w)); intuition congruence.
  - intros fuel Hfuel.
    destruct fuel as [|[|[|[|fuel]]]]; try lia.
    repeat split; vm_compute; reflexivity.
Qed.

Lemma pull_removes_behind_face_witness :
  option_map (fun p => voxels (snd p)) (pushThenPull 4 1)
  = Some (map (raised (1 * 0.3)) platform)
  /\ (In (mkVoxel (mkVector3 0 0 0) "#1e88e5") (map (raised 0.3) platform)
      <-> In (mkVoxel (mkVector3 0 0 0) "#1e88e5") (platform ++ map (raised 0.3) platform)
          /\ ~ (exists v i e,
                   In v (voxelsInPlane (platform ++ map (raised 0.3) platform) up
                                       (mkVector3 0 0.3 0))
                   /\ In i [1] /\ In e (platform ++ map (raised 0.3) platform)
                   /\ within (position e)
                             (Vec.add (Vec.copy (position v))
                                      (Vec.multiplyScalar (Vec.copy up) (- i * 0.3)))
                      = true
                   /\ samePosKey (position e) (mkVector3 0 0 0) = true)).
Proof.
  split.
  - apply (proj2 pull_removes_behind_face 4%nat (le_n 4)).
  - apply (proj1 pull_removes_behind_face 2%nat up (- 0.3)
             (pointAt (mkVector3 0 0.3 0) up "#1e88e5"
                (set_voxels pointedPlatform (platform ++ map (raised 0.3) platform)))
             (set_voxels
                (pointAt (mkVector3 0 0.3 0) up "#1e88e5"
                   (set_voxels pointedPlatform (platform ++ map (raised 0.3) platform)))
                (map (raised 0.3) platform))
             (mkFace up) (mkVoxel (mkVector3 0 0.3 0) "#1e88e5") [1]);
      vm_compute; reflexivity.
Defined.

Lemma pushPullFace_frame_witness :
  (exists newVoxels,
      platform ++ map (raised 0.3) platform = platform ++ newVoxels)
  /\ (exists keep,
         map (raised 0.3) platform
         = filter keep (platform ++ map (raised 0.3) platform)).
Proof.
  split.
  - apply (proj1 (pushPullFace_frame 2 up 0.3 pointedPlatform
                    (set_voxels pointedPlatform (platform ++ map (raised 0.3) platform))
                    ltac:(vm_compute; reflexivity))).
    vm_compute; reflexivity.
  - apply (proj2 (pushPullFace_frame 2 up (- 0.3)
                    (pointAt (mkVector3 0 0.3 0) up "#1e88e5"
                       (set_voxels pointedPlatform
                          (platform ++ map (raised 0.3) platform)))
                    (set_voxels
                       (pointAt (mkVector3 0 0.3 0) up "#1e88e5"
                          (set_voxels pointedPlatform
                             (platform ++ map (raised 0.3) platform)))
                       (map (raised 0.3) platform))
                    ltac:(vm_compute; reflexivity))).
    vm_compute; reflexivity.
Defined.

End Platform.

(** ** Uniqueness of positions *)

Section Uniqueness.

Local Open Scope float_scope.

Lemma positionUnique_snoc (l : list Voxel) (v : Voxel) :
  positionUnique l = true ->
  existsb (fun w => isSamePosition (position w) (position v)) l = false ->
  positionUnique (l ++ [v]) = true.
Proof.
  induction l as [|a l IH]; simpl; [reflexivity|].
  rewrite andb_true_iff, negb_true_iff, orb_false_iff.
  intros [Ha Hl] [Hav Hlv].
  rewrite existsb_app, Ha. simpl. rewrite Hav. simpl. auto.
Qed.

Lemma positionUnique_filter (keep : Voxel -> bool) (l : list Voxel) :
  positionUnique l = true -> positionUnique (filter keep l) = true.
Proof.
  induction l as [|a l IH]; simpl; [reflexivity|].
  rewrite andb_true_iff, negb_true_iff. intros [Ha Hl].
  destruct (keep a); simpl; auto.
  rewrite (existsb_filter_false _ keep l Ha). simpl. auto.
Qed.

Lemma dispatch_positionUnique (fuel : nat) (a : Action) (s s' : StoreState) :
  notOutward a ->
  dispatch fuel a s = Some s' ->
  positionUnique (voxels s) = true ->
  positionUnique (voxels s') = true.
Proof.
  destruct a as [h|f|m|v|p|n d| ]; simpl; intros Hout H Hs.
  - injection H as <-. exact Hs.
  - injection H as <-. exact Hs.
  - injection H as <-. exact Hs.
  - injection H as <-. unfold addVoxel.
    destruct (existsb _ (voxels s)) eqn:E; simpl; [exact Hs|].
    now apply positionUnique_snoc.
  - injection H as <-. simpl. now apply positionUnique_filter.
  - destruct (pushPullFace_cases _ _ _ _ _ H)
      as [->|[(Hgt & _)|(_ & _ & keep & ->)]].
    + exact Hs.
    + congruence.
    + simpl. now apply positionUnique_filter.
  - injection H as <-. vm_compute. reflexivity.
Qed.

Lemma run_positionUnique (fuel : nat) (acts : list Action) :
  forall s s',
    Forall notOutward acts ->
    run fuel acts s = Some s' ->
    positionUnique (voxels s) = true ->
    positionUnique (voxels s') = true.
Proof.
  induction acts as [|a acts IH]; simpl; intros s s' Hout H Hs.
  - injection H as <-. exact Hs.
  - inversion Hout as [|? ? Ha Hacts]; subst.
    destruct (dispatch fuel a s) as [s1|] eqn:E; [|discriminate].
    eapply IH; eauto. eapply dispatch_positionUnique; eauto.
Qed.

(** C1 as it is worded fails: addVoxel compares positions with [===],
    so a voxel at (0.005, 0, 0), which snaps to the cell of the
    platform voxel at the origin and is within 0.01 of it, is added
    next to it. *)
Lemma near_duplicate_added :
  exists s,
    run 0 [AddVoxel (mkVoxel (mkVector3 0.005 0 0) "#1e88e5")] initialState = Some s
    /\ cellUnique (voxels s) = false
    /\ sameCell (mkVector3 0 0 0) (mkVector3 0.005 0 0) = true
    /\ within (mkVector3 0 0 0) (mkVector3 0.005 0 0) = true.
Proof.
  eexists. split; [reflexivity|]. repeat split; vm_compute; reflexivity.
Qed.

(** An outward push can even hold the same position twice.  The
    staged voxels are tested against the voxels of the state only, not
    against one another: with voxels at (0,0,0) and (0,1e-20,0) both
    on the pushed plane, both stage a voxel at (0, 0.3, 0). *)
Example outward_push_duplicate :
  exists s,
    run 2 [ AddVoxel (mkVoxel (mkVector3 0 1e-20 0) "#1e88e5");
            SetHoveredVoxel (Some (mkVoxel (mkVector3 0 0 0) "#1e88e5"));
            SetSelectedFace (Some (mkFace up));
            PushPullFace up 0.3 ] initialState = Some s
    /\ positionUnique (voxels s) = false
    /\ countAt (mkVector3 0 0.3 0) (voxels s) = 2%nat.
Proof.
  eexists. split; [vm_compute; reflexivity|]. split; vm_compute; reflexivity.
Qed.

(** C1, as the code has it.  From the initial platform, along every
    sequence of store actions in which no pushPullFace has a positive
    quantised distance (addVoxel, removeVoxel, resetWorld, the
    setters, and pushPullFace pulling or doing nothing), no two voxels
    of the list have the same position by [isSamePosition].  And an
    outward push appends only voxels that lie within 0.01 of no voxel
    the list held before the call. *)
Theorem positions_stay_unique :
  (forall fuel acts s,
      Forall notOutward acts ->
      run fuel acts initialState = Some s ->
      positionUnique (voxels s) = true)
  /\ (forall fuel n d s s',
         pushPullFace fuel n d s = Some s' ->
         JS.gt (quantize d) 0 = true ->
         exists newVoxels,
           voxels s' = voxels s ++ newVoxels
           /\ forall nv, In nv newVoxels ->
                         existsb (fun w => within (position w) (position nv))
                                 (voxels s) = false).
Proof.
  split.
  - intros fuel acts s Hout H.
    apply (run_positionUnique fuel acts initialState s Hout H).
    vm_compute. reflexivity.
  - intros fuel n d s s' H Hgt.
    destruct (pushPullFace_cases _ _ _ _ _ H)
      as [->|[(_ & f & h & layers & _ & _ & ->)|(Hgt' & _)]].
    + exists []. rewrite app_nil_r. split; [reflexivity|intros nv []].
    + eexists. split; [reflexivity|].
      intros nv Hnv. apply in_flat_map in Hnv. destruct Hnv as [v [_ Hnv]].
      apply (pushed_spec _ _ _ _ _ Hnv).
    + congruence.
Qed.

Lemma positions_stay_unique_witness :
  positionUnique
    (voxels (removeVoxel (mkVector3 0.3 0 0)
               (addVoxel (mkVoxel (mkVector3 0.005 0 0) "#1e88e5") initialState)))
  = true
  /\ exists newVoxels,
       platform ++ map (raised 0.3) platform = platform ++ newVoxels
       /\ forall nv, In nv newVoxels ->
                     existsb (fun w => within (position w) (position nv)) platform
                     = false.
Proof.
  split.
  - apply (proj1 positions_stay_unique 0%nat
             [ AddVoxel (mkVoxel (mkVector3 0.005 0 0) "#1e88e5");
               RemoveVoxel (mkVector3 0.3 0 0) ]).
    + repeat constructor.
    + reflexivity.
  - apply (proj2 positions_stay_unique 2%nat up 0.3 pointedPlatform
             (set_voxels pointedPlatform (platform ++ map (raised 0.3) platform))).
    + vm_compute; reflexivity.
    + vm_compute; reflexivity.
Defined.

End Uniqueness.

(** ** The quantisation of normals *)

Section Normals.

Local Open Scope float_scope.

(** C8 as it is worded fails on ties.  A tie is not settled by X
    over Y over Z: with x and z equal in magnitude the Z axis is
    taken, not X, and with y and z equal the Z axis, not Y.  With x
    and y equal and z smaller the Z axis is taken as well. *)
Lemma normalizedNormal_ties :
  normalizedNormal (mkVector3 1 0 1) = mkVector3 0 0 1
  /\ normalizedNormal (mkVector3 1 0 1) <> mkVector3 1 0 0
  /\ normalizedNormal (mkVector3 0 1 1) = mkVector3 0 0 1
  /\ normalizedNormal (mkVector3 1 1 0) = mkVector3 0 0 (-1).
Proof.
  repeat split; try (vm_compute; reflexivity).
  intros H. apply (f_equal (fun v => JS.strictEq (x v) 1)) in H.
  vm_compute in H. discriminate.
Qed.

(** C8, as the code has it.  When the magnitude of one coordinate is
    greater than both others, the normal is the unit vector of that
    axis with the sign of that coordinate, which is not zero.  When
    the magnitude of z is at least both others, ties included, the
    normal is the unit vector of Z, pointing up when z is above zero
    and down otherwise. *)
Theorem normalizedNormal_dominant (v : Vector3) :
  (JS.gt (JS.Math_abs (x v)) (JS.Math_abs (y v)) = true ->
   JS.gt (JS.Math_abs (x v)) (JS.Math_abs (z v)) = true ->
   (JS.gt (x v) 0 = true /\ normalizedNormal v = mkVector3 1 0 0)
   \/ (JS.lt (x v) 0 = true /\ normalizedNormal v = mkVector3 (-1) 0 0))
  /\ (JS.gt (JS.Math_abs (y v)) (JS.Math_abs (x v)) = true ->
      JS.gt (JS.Math_abs (y v)) (JS.Math_abs (z v)) = true ->
      (JS.gt (y v) 0 = true /\ normalizedNormal v = mkVector3 0 1 0)
      \/ (JS.lt (y v) 0 = true /\ normalizedNormal v = mkVector3 0 (-1) 0))
  /\ (JS.le (JS.Math_abs (x v)) (JS.Math_abs (z v)) = true ->
      JS.le (JS.Math_abs (y v)) (JS.Math_abs (z v)) = true ->
      normalizedNormal v = mkVector3 0 0 (if JS.gt (z v) 0 then 1 else -1)).
Proof.
  unfold normalizedNormal, JS.gt, JS.lt, JS.le, JS.Math_abs.
  split; [|split].
  - intros Hxy Hxz. rewrite Hxy, Hxz. simpl.
    destruct (abs_gt_sign _ _ Hxy) as [H|H].
    + left. now rewrite H.
    + right. now rewrite (ltb_asym _ _ H).
  - intros Hyx Hyz. rewrite (ltb_asym _ _ Hyx), Hyx, Hyz. simpl.
    destruct (abs_gt_sign _ _ Hyx) as [H|H].
    + left. now rewrite H.
    + right. now rewrite (ltb_asym _ _ H).
  - intros Hxz Hyz.
    rewrite (leb_not_gt _ _ Hxz), (leb_not_gt _ _ Hyz), !andb_false_r.
    reflexivity.
Qed.

Lemma normalizedNormal_dominant_witness :
  normalizedNormal (mkVector3 0.2 (-0.9) 0.1) = mkVector3 0 (-1) 0
  /\ normalizedNormal (mkVector3 (-0.7) 0.1 0.7) = mkVector3 0 0 1.
Proof.
  split.
  - destruct (proj1 (proj2 (normalizedNormal_dominant (mkVector3 0.2 (-0.9) 0.1))))
      as [[H _]|[_ H]].
    + vm_compute; reflexivity.
    + vm_compute; reflexivity.
    + vm_compute in H. discriminate.
    + exact H.
  - apply (proj2 (proj2 (normalizedNormal_dominant (mkVector3 (-0.7) 0.1 0.7))));
      vm_compute; reflexivity.
Defined.

End Normals.

(** ** Coplanar groups *)

Section Coplanar.

Local Open Scope float_scope.

Lemma copy_id (v : Vector3) : Vec.copy v = v.
Proof. now destruct v. Qed.

Lemma fixedText_eqb_refl (t : JS.fixedText) : JS.fixedText_eqb t t = true.
Proof.
  destruct t as [|s|s n|s a]; simpl; rewrite ?eqb_reflx, ?Z.eqb_refl; try reflexivity.
  simpl. now apply FloatAxioms.Leibniz.eqb_spec.
Qed.

Lemma posKey_eqb_refl (k : list JS.fixedText) : posKey_eqb k k = true.
Proof.
  induction k as [|t k IH]; simpl; [reflexivity|].
  now rewrite fixedText_eqb_refl, IH.
Qed.

Lemma voxelsInPlane_In (vs : list Voxel) (n p : Vector3) (v : Voxel) :
  In v (voxelsInPlane vs n p) <-> In v vs /\ exposedOnPlane vs n p v.
Proof.
  unfold voxelsInPlane, exposedOnPlane. rewrite filter_In.
  destruct (onPlane n p (position v)), (hasNeighbor vs n (position v)); simpl;
    intuition congruence.
Qed.

(** One turn of the loop either leaves the loop state as it is, the
    voxel failing a condition or its key being there already, or
    appends the voxel and records its key. *)
Lemma scanVoxel_cases (vs : list Voxel) (p n : Vector3) (acc : Scan) (a : Voxel) :
  (scanVoxel vs p n acc a = acc
   /\ (exposedOnPlane vs n p a ->
       processed_has (processedPositions acc) (voxelKey n a) = true))
  \/ (exposedOnPlane vs n p a
      /\ scan_voxels (scanVoxel vs p n acc a) = scan_voxels acc ++ [a]
      /\ processedPositions (scanVoxel vs p n acc a)
         = voxelKey n a :: processedPositions acc).
Proof.
  unfold scanVoxel, exposedOnPlane, voxelKey. rewrite !copy_id.
  destruct (onPlane n p (position a)).
  - destruct (processed_has _ _) eqn:Hhas.
    + left. split; [reflexivity|intros _; reflexivity].
    + destruct (hasNeighbor vs n (position a)); simpl.
      * left. split; [reflexivity|intros [_ H]; discriminate].
      * right. repeat split.
  - left. split; [reflexivity|intros [H _]; discriminate].
Qed.

Lemma scan_spec (vs : list Voxel) (p n : Vector3) :
  forall (l : list Voxel) (acc : Scan),
    (forall k, In k (processedPositions acc) ->
               exists w, In w (scan_voxels acc) /\ voxelKey n w = k) ->
    let r := fold_left (scanVoxel vs p n) l acc in
    (exists more, scan_voxels r = scan_voxels acc ++ more
                  /\ forall w, In w more -> In w l /\ exposedOnPlane vs n p w)
    /\ (forall v, In v l -> exposedOnPlane vs n p v ->
                  exists w, In w (scan_voxels r)
                            /\ posKey_eqb (voxelKey n w) (voxelKey n v) = true).
Proof.
  induction l as [|a l IH]; intros acc Hinv; simpl.
  - split.
    + exists []. rewrite app_nil_r. split; [reflexivity|intros w []].
    + intros v [].
  - destruct (scanVoxel_cases vs p n acc a) as [[Heq Hskip]|(Ha & Hvs & Hks)].
    + rewrite Heq. destruct (IH acc Hinv) as [(more & Hmore & Hin) Hall].
      split.
      * exists more. split; [exact Hmore|].
        intros w Hw. destruct (Hin w Hw). split; [now right|assumption].
      * intros v [<-|Hv] Hq; [|now apply Hall].
        specialize (Hskip Hq). unfold processed_has in Hskip.
        apply existsb_exists in Hskip. destruct Hskip as [k [Hk Hkey]].
        destruct (Hinv k Hk) as [w [Hw <-]].
        exists w. split; [|exact Hkey].
        rewrite Hmore. apply in_or_app. now left.
    + destruct (IH (scanVoxel vs p n acc a)) as [(more & Hmore & Hin) Hall].
      { rewrite Hks, Hvs. intros k [<-|Hk].
        - exists a. split; [apply in_or_app; right; now left|reflexivity].
        - destruct (Hinv k Hk) as [w [Hw Hkw]].
          exists w. split; [apply in_or_app; now left|exact Hkw]. }
      split.
      * exists (a :: more). rewrite Hmore, Hvs, <- app_assoc. split; [reflexivity|].
        intros w [<-|Hw]; [split; [now left|exact Ha]|].
        destruct (Hin w Hw). split; [now right|assumption].
      * intros v [<-|Hv] Hq; [|now apply Hall].
        exists a. split; [|exact (posKey_eqb_refl (voxelKey n a))].
        rewrite Hmore, Hvs. apply in_or_app. left. apply in_or_app. right. now left.
Qed.

Lemma findVoxelsInSamePlane_sound (vs : list Voxel) (p n : Vector3) (v : Voxel) :
  In v (sel_voxels (findVoxelsInSamePlane vs p n)) ->
  In v vs /\ exposedOnPlane vs n p v.
Proof.
  unfold findVoxelsInSamePlane. simpl.
  destruct (scan_spec vs p n vs (mkScan [] [] [])) as [(more & Hmore & Hin) _].
  { intros k []. }
  rewrite Hmore. simpl. apply Hin.
Qed.

Lemma findVoxelsInSamePlane_complete (vs : list Voxel) (p n : Vector3) (v : Voxel) :
  In v vs -> exposedOnPlane vs n p v ->
  exists w, In w (sel_voxels (findVoxelsInSamePlane vs p n))
            /\ posKey_eqb (voxelKey n w) (voxelKey n v) = true.
Proof.
  unfold findVoxelsInSamePlane. simpl.
  destruct (scan_spec vs p n vs (mkScan [] [] [])) as [_ Hall].
  { intros k []. }
  apply Hall.
Qed.

(** C3 as it is worded fails for findVoxelsInSamePlane, which
    skips a voxel whose printed key an earlier member has: with a
    voxel at (0.001, 0, 0) added to the platform, that voxel is on the
    plane of the top face of the origin voxel and has no voxel above
    it, and yet the group is the four platform voxels. *)
Lemma findVoxelsInSamePlane_skips_same_key :
  let b := mkVoxel (mkVector3 0.001 0 0) "#1e88e5" in
  In b crowded
  /\ onPlane up (mkVector3 0 0 0) (position b) = true
  /\ hasNeighbor crowded up (position b) = false
  /\ sel_voxels (findVoxelsInSamePlane crowded (mkVector3 0 0 0) up) = platform
  /\ ~ In b (sel_voxels (findVoxelsInSamePlane crowded (mkVector3 0 0 0) up)).
Proof.
  assert (Hsel : sel_voxels (findVoxelsInSamePlane crowded (mkVector3 0 0 0) up)
                 = platform) by (vm_compute; reflexivity).
  split; [|split; [|split; [|split]]].
  - vm_compute. do 4 right. left. reflexivity.
  - vm_compute; reflexivity.
  - vm_compute; reflexivity.
  - exact Hsel.
  - rewrite Hsel. intros H.
    assert (Hx : existsb (fun w => JS.strictEq (x (position w)) 0.001) platform = true).
    { apply existsb_exists. eexists. split; [exact H|]. vm_compute; reflexivity. }
    vm_compute in Hx. discriminate.
Qed.

(** C3, as the code has it.  In pushPullFace a voxel is in the group
    exactly when it is on the plane through the anchor, its plane
    distance below 0.01, and no voxel lies within 0.01 of its position
    moved by the normal times 0.3.  In findVoxelsInSamePlane every
    member satisfies the two conditions, and a voxel that satisfies
    them is a member or has the printed key (position with two
    decimals, normal with one) of a member; so that membership is the
    two conditions whenever no two voxels print the same key.  For the
    platform, the normal (0,1,0) and a platform voxel as the anchor,
    the group is the four voxels and its centre is (0.3/2, 0, 0.3/2). *)
Theorem coplanar_group_membership :
  (forall vs n p v,
      In v (voxelsInPlane vs n p) <-> In v vs /\ exposedOnPlane vs n p v)
  /\ (forall vs p n v,
         In v (sel_voxels (findVoxelsInSamePlane vs p n)) ->
         In v vs /\ exposedOnPlane vs n p v)
  /\ (forall vs p n v,
         In v vs -> exposedOnPlane vs n p v ->
         exists w, In w (sel_voxels (findVoxelsInSamePlane vs p n))
                   /\ posKey_eqb (voxelKey n w) (voxelKey n v) = true)
  /\ (forall vs p n,
         (forall a b, In a vs -> In b vs ->
                      posKey_eqb (voxelKey n a) (voxelKey n b) = true -> a = b) ->
         forall v, In v (sel_voxels (findVoxelsInSamePlane vs p n))
                   <-> In v vs /\ exposedOnPlane vs n p v)
  /\ (forall h, In h platform ->
                findVoxelsInSamePlane platform (position h) up
                = mkSelection platform (mkVector3 (0.3 / 2) 0 (0.3 / 2))
                              (map (faceOf up) platform)).
Proof.
  split; [exact voxelsInPlane_In|].
  split; [exact findVoxelsInSamePlane_sound|].
  split; [exact findVoxelsInSamePlane_complete|].
  split.
  - intros vs p n Hkeys v. split; [apply findVoxelsInSamePlane_sound|].
    intros [Hv Hq].
    destruct (findVoxelsInSamePlane_complete vs p n v Hv Hq) as [w [Hw Hk]].
    destruct (findVoxelsInSamePlane_sound vs p n w Hw) as [Hwvs _].
    now rewrite <- (Hkeys w v Hwvs Hv Hk).
  - intros h Hh. simpl in Hh.
    destruct Hh as [<-|[<-|[<-|[<-|[]]]]]; vm_compute; reflexivity.
Qed.

Lemma coplanar_group_membership_witness :
  In (mkVoxel (mkVector3 0.3 0 0) "#1e88e5")
     (voxelsInPlane platform up (mkVector3 0 0 0))
  /\ center (findVoxelsInSamePlane platform (mkVector3 0 0 0.3) up)
     = mkVector3 (0.3 / 2) 0 (0.3 / 2).
Proof.
  split.
  - apply (proj1 coplanar_group_membership). split; [|split].
    + simpl. right. left. reflexivity.
    + vm_compute; reflexivity.
    + vm_compute; reflexivity.
  - refine (f_equal center
              (proj2 (proj2 (proj2 (proj2 coplanar_group_membership)))
                 (mkVoxel (mkVector3 0 0 0.3) "#1e88e5") _)).
    simpl. do 2 right. left. reflexivity.
Defined.

End Coplanar.

(** * Further properties of the store and of the components *)

(** ** More on binary64 comparisons *)

Section MoreNumbers.

Local Open Scope float_scope.

Lemma SFcompare_refl (a : spec_float) :
  a <> S754_nan -> SFcompare a a = Some Eq.
Proof.
  destruct a as [s|s| |s m e]; simpl; intros H; try congruence.
  - now destruct s.
  - destruct s; rewrite Z.compare_refl, Pos.compare_cont_refl; reflexivity.
Qed.

Lemma is_nan_Prim2SF (a : float) : is_nan a = true -> Prim2SF a = S754_nan.
Proof.
  unfold is_nan. rewrite negb_true_iff, FloatAxioms.eqb_spec. unfold SFeqb.
  intros H. destruct (Prim2SF a) as [s|s| |s m e] eqn:E; try reflexivity.
  - rewrite SFcompare_refl in H; [discriminate|congruence].
  - rewrite SFcompare_refl in H; [discriminate|congruence].
  - rewrite SFcompare_refl in H; [discriminate|congruence].
Qed.

Lemma eqb_sym (a b : float) : (a =? b) = (b =? a).
Proof.
  rewrite !FloatAxioms.eqb_spec. unfold SFeqb.
  rewrite (SFcompare_antisym (Prim2SF b) (Prim2SF a)).
  destruct (SFcompare (Prim2SF b) (Prim2SF a)) as [[ | | ]|]; reflexivity.
Qed.

Lemma nan_eqb_l (a b : float) : is_nan a = true -> (a =? b) = false.
Proof.
  intros H. rewrite FloatAxioms.eqb_spec, (is_nan_Prim2SF _ H). reflexivity.
Qed.

Lemma nan_eqb_r (a b : float) : is_nan b = true -> (a =? b) = false.
Proof. intros H. rewrite eqb_sym. now apply nan_eqb_l. Qed.

(** A number within a bound of another is not NaN. *)
Lemma close_not_nan (a b c : float) :
  (abs (a - b) <? c) = true -> is_nan a = false /\ is_nan b = false.
Proof.
  rewrite FloatAxioms.ltb_spec, FloatAxioms.abs_spec, FloatAxioms.sub_spec.
  intros H. split.
  - destruct (is_nan a) eqn:E; [|reflexivity].
    rewrite (is_nan_Prim2SF _ E) in H. discriminate.
  - destruct (is_nan b) eqn:E; [|reflexivity].
    rewrite (is_nan_Prim2SF _ E) in H.
    destruct (Prim2SF a); discriminate.
Qed.

End MoreNumbers.

(** ** removeVoxel *)

Section RemoveVoxel.

Local Open Scope float_scope.

Lemma filter_true_on {A : Type} (f : A -> bool) (l : list A) :
  (forall a, In a l -> f a = true) -> filter f l = l.
Proof.
  induction l as [|a l IH]; simpl; intros H; [reflexivity|].
  rewrite (H a (or_introl eq_refl)). f_equal. apply IH. intros b Hb. apply H. now right.
Qed.

Lemma filter_idem {A : Type} (f : A -> bool) (l : list A) :
  filter f (filter f l) = filter f l.
Proof.
  apply filter_true_on. intros a Ha. apply filter_In in Ha. apply Ha.
Qed.

Lemma filter_comm {A : Type} (f g : A -> bool) (l : list A) :
  filter f (filter g l) = filter g (filter f l).
Proof.
  induction l as [|a l IH]; simpl; [reflexivity|].
  destruct (f a) eqn:Ef, (g a) eqn:Eg; simpl; rewrite ?Ef, ?Eg, IH; reflexivity.
Qed.

Lemma removeVoxel_absent (p : Vector3) (s : StoreState) :
  existsb (fun w => isSamePosition (position w) p) (voxels s) = false ->
  removeVoxel p s = s.
Proof.
  intros H. unfold removeVoxel. rewrite filter_true_on; [apply set_voxels_same|].
  intros w Hw. rewrite (proj1 (existsb_false_In _ _) H w Hw). reflexivity.
Qed.

(** X1. After [removeVoxel p] no voxel is at [p], however many were
    there; a second [removeVoxel p] changes nothing more; and two
    removals give the same state in either order. *)
Theorem removeVoxel_clears_position (p q : Vector3) (s : StoreState) :
  countAt p (voxels (removeVoxel p s)) = 0%nat
  /\ removeVoxel p (removeVoxel p s) = removeVoxel p s
  /\ removeVoxel p (removeVoxel q s) = removeVoxel q (removeVoxel p s).
Proof.
  split; [|split].
  - apply countAt_none. simpl. apply existsb_false_In.
    intros w Hw. apply filter_In in Hw. destruct Hw as [_ Hw].
    now apply negb_true_iff in Hw.
  - unfold removeVoxel. simpl. now rewrite filter_idem.
  - unfold removeVoxel. simpl. now rewrite filter_comm.
Qed.

(** X2. Removing at a position where no voxel is leaves the state as
    it is: a miss is silent. *)
Theorem removeVoxel_miss (p : Vector3) (s : StoreState) :
  (forall w, In w (voxels s) -> isSamePosition (position w) p = false) ->
  removeVoxel p s = s.
Proof.
  intros H. apply removeVoxel_absent. now apply existsb_false_In.
Qed.

Lemma removeVoxel_miss_witness :
  removeVoxel (mkVector3 0 0.3 0) initialState = initialState.
Proof.
  apply removeVoxel_miss. intros w Hw. simpl in Hw.
  destruct Hw as [<-|[<-|[<-|[<-|[]]]]]; vm_compute; reflexivity.
Defined.

(** X3. A voxel added at a free position, no coordinate of which is
    NaN, is taken away again by [removeVoxel] at that position: the
    state is the one before the addition. *)
Theorem addVoxel_removeVoxel (v : Voxel) (s : StoreState) :
  (forall w, In w (voxels s) -> isSamePosition (position w) (position v) = false) ->
  isSamePosition (position v) (position v) = true ->
  removeVoxel (position v) (addVoxel v s) = s.
Proof.
  intros Hfree Hnan.
  rewrite addVoxel_free by now apply existsb_false_In.
  unfold removeVoxel. simpl. rewrite filter_app. simpl.
  replace (isSamePosition _ (position v)) with true
    by (symmetry; exact Hnan).
  simpl. rewrite app_nil_r.
  rewrite filter_true_on; [now destruct s|].
  intros w Hw. now rewrite (Hfree w Hw).
Qed.

Lemma addVoxel_removeVoxel_witness :
  removeVoxel (mkVector3 0 0.3 0)
    (addVoxel (mkVoxel (mkVector3 0 0.3 0) "#ffffff") initialState)
  = initialState.
Proof.
  apply (addVoxel_removeVoxel (mkVoxel (mkVector3 0 0.3 0) "#ffffff") initialState).
  - intros w Hw. simpl in Hw.
    destruct Hw as [<-|[<-|[<-|[<-|[]]]]]; vm_compute; reflexivity.
  - vm_compute; reflexivity.
Defined.

Lemma isSamePosition_nan_l (p q : Vector3) :
  hasNaN p = true -> isSamePosition p q = false.
Proof.
  unfold hasNaN, isSamePosition, JS.strictEq. rewrite !orb_true_iff.
  intros [[H|H]|H]; rewrite (nan_eqb_l _ _ H); rewrite ?andb_false_r; reflexivity.
Qed.

Lemma isSamePosition_nan_r (p q : Vector3) :
  hasNaN q = true -> isSamePosition p q = false.
Proof.
  unfold hasNaN, isSamePosition, JS.strictEq. rewrite !orb_true_iff.
  intros [[H|H]|H]; rewrite (nan_eqb_r _ _ H); rewrite ?andb_false_r; reflexivity.
Qed.

(** X4. [removeVoxel] cannot take away a voxel with a NaN coordinate,
    whatever position it is given, and given a position with a NaN
    coordinate it removes nothing; [addVoxel] adds such a voxel every
    time. *)
Theorem nan_voxel_stays (v : Voxel) (p : Vector3) (s : StoreState) :
  (hasNaN (position v) = true -> In v (voxels s) -> In v (voxels (removeVoxel p s)))
  /\ (hasNaN p = true -> removeVoxel p s = s)
  /\ (hasNaN (position v) = true ->
      voxels (addVoxel v s)
      = voxels s ++ [mkVoxel (Vec.copy (position v)) (color v)]).
Proof.
  split; [|split].
  - intros Hnan Hin. simpl. apply filter_In. split; [exact Hin|].
    now rewrite isSamePosition_nan_l.
  - intros Hnan. apply removeVoxel_absent. apply existsb_false_In.
    intros w _. now apply isSamePosition_nan_r.
  - intros Hnan. rewrite addVoxel_free; [reflexivity|].
    apply existsb_false_In. intros w _. now apply isSamePosition_nan_r.
Qed.

Lemma nan_voxel_stays_witness :
  In (mkVoxel (mkVector3 nan 0 0) "#1e88e5")
     (voxels (removeVoxel (mkVector3 nan 0 0)
                (addVoxel (mkVoxel (mkVector3 nan 0 0) "#1e88e5") initialState))).
Proof.
  apply (proj1 (nan_voxel_stays (mkVoxel (mkVector3 nan 0 0) "#1e88e5")
                  (mkVector3 nan 0 0)
                  (addVoxel (mkVoxel (mkVector3 nan 0 0) "#1e88e5") initialState))).
  - vm_compute; reflexivity.
  - vm_compute. do 4 right. left. reflexivity.
Defined.

End RemoveVoxel.

(** ** What the store actions leave alone *)

Section Frames.

Local Open Scope float_scope.

(** X5. A store action that writes the voxel list (addVoxel,
    removeVoxel, pushPullFace, resetWorld) leaves the hovered voxel,
    the selected face and the tool mode as they are, so that a
    selection outlives a reset or the removal of its voxel; and a
    setter leaves the voxel list as it is. *)
Theorem actions_frame (fuel : nat) (a : Action) (s s' : StoreState) :
  dispatch fuel a s = Some s' ->
  (writesVoxels a = true ->
   hoveredVoxel s' = hoveredVoxel s /\ selectedFace s' = selectedFace s
   /\ toolMode s' = toolMode s)
  /\ (writesVoxels a = false -> voxels s' = voxels s).
Proof.
  destruct a as [h|f|m|v|p|n d| ]; simpl; intros H.
  - injection H as <-. split; [discriminate|reflexivity].
  - injection H as <-. split; [discriminate|reflexivity].
  - injection H as <-. split; [discriminate|reflexivity].
  - injection H as <-. split; [intros _|discriminate].
    unfold addVoxel.
    destruct (existsb _ (voxels s)); simpl; repeat split.
  - injection H as <-. split; [intros _; repeat split|discriminate].
  - split; [intros _|discriminate].
    destruct (pushPullFace_cases _ _ _ _ _ H)
      as [->|[(_ & f & h & layers & _ & _ & ->)|(_ & _ & keep & ->)]];
      repeat split.
  - injection H as <-. split; [intros _; repeat split|discriminate].
Qed.

Lemma actions_frame_witness :
  hoveredVoxel (resetWorld (removeVoxel (mkVector3 0 0 0) pointedPlatform))
  = Some (mkVoxel (mkVector3 0 0 0) "#1e88e5").
Proof.
  rewrite (proj1 (proj1 (actions_frame 0 ResetWorld
                           (removeVoxel (mkVector3 0 0 0) pointedPlatform)
                           (resetWorld (removeVoxel (mkVector3 0 0 0) pointedPlatform))
                           eq_refl) eq_refl)).
  rewrite (proj1 (proj1 (actions_frame 0 (RemoveVoxel (mkVector3 0 0 0))
                           pointedPlatform
                           (removeVoxel (mkVector3 0 0 0) pointedPlatform)
                           eq_refl) eq_refl)).
  reflexivity.
Defined.

Lemma forUpTo_bound (fuel : nat) :
  forall (i steps : JS.number) (l : list JS.number),
    JS.forUpTo fuel i steps = Some l ->
    forall j, In j l -> JS.le j steps = true.
Proof.
  induction fuel as [|fuel IH]; simpl; intros i steps l H j Hj; [discriminate|].
  destruct (i <=? steps) eqn:E.
  - destruct (JS.forUpTo fuel (i + 1) steps) as [l'|] eqn:E'; [|discriminate].
    injection H as <-. destruct Hj as [<-|Hj]; [exact E|]. eapply IH; eauto.
  - injection H as <-. destruct Hj.
Qed.

(** What an outward push that returns has appended. *)
Lemma pushPullFace_push (fuel : nat) (n : Vector3) (d : JS.number)
      (s s' : StoreState) (f : Face) (h : Voxel) :
  pushPullFace fuel n d s = Some s' ->
  JS.gt (quantize d) 0 = true ->
  selectedFace s = Some f ->
  hoveredVoxel s = Some h ->
  s' = s
  \/ exists layers,
      JS.forUpTo fuel 1 (JS.Math_round (JS.Math_abs (quantize d) / 0.3)) = Some layers
      /\ s' = set_voxels s
               (voxels s
                ++ flat_map (pushed (voxels s) (normal f) layers)
                     (voxelsInPlane (voxels s) (normal f) (position h))).
Proof.
  intros H Hgt Hf Hh. unfold pushPullFace in H.
  destruct (JS.strictEq (quantize d) 0); [left; congruence|].
  rewrite Hf, Hh in H. cbv beta iota zeta in H.
  destruct (List.length _ =? 0)%nat; [left; congruence|].
  rewrite Hgt in H.
  destruct (JS.forUpTo fuel 1 _) as [layers|] eqn:E; [|discriminate].
  right. exists layers. split; [reflexivity|]. congruence.
Qed.

(** X6. Every voxel an outward push appends comes from a voxel of the
    pushed group: it has that voxel's colour and lies at its position
    moved by the selected normal times [i * 0.3], for a counter value
    [i] not above the number of layers. *)
Theorem outward_push_provenance (fuel : nat) (n : Vector3) (d : JS.number)
        (s s' : StoreState) (f : Face) (h : Voxel) :
  pushPullFace fuel n d s = Some s' ->
  JS.gt (quantize d) 0 = true ->
  selectedFace s = Some f ->
  hoveredVoxel s = Some h ->
  exists newVoxels,
    voxels s' = voxels s ++ newVoxels
    /\ forall nv, In nv newVoxels ->
         exists v i,
           In v (voxelsInPlane (voxels s) (normal f) (position h))
           /\ JS.le i (JS.Math_round (JS.Math_abs (quantize d) / 0.3)) = true
           /\ color nv = color v
           /\ position nv
              = Vec.add (Vec.copy (position v))
                        (Vec.multiplyScalar (Vec.copy (normal f)) (i * 0.3)).
Proof.
  intros H Hgt Hf Hh.
  destruct (pushPullFace_push _ _ _ _ _ _ _ H Hgt Hf Hh) as [->|(layers & Hl & ->)].
  - exists []. rewrite app_nil_r. split; [reflexivity|intros nv []].
  - eexists. split; [reflexivity|].
    intros nv Hnv. apply in_flat_map in Hnv. destruct Hnv as [v [Hv Hnv]].
    destruct (pushed_spec _ _ _ _ _ Hnv) as (_ & Hc & i & Hi & Hp).
    exists v, i. repeat split; auto.
    exact (forUpTo_bound _ _ _ _ Hl i Hi).
Qed.

Lemma outward_push_provenance_witness :
  exists newVoxels,
    platform ++ map (raised 0.3) platform = platform ++ newVoxels
    /\ forall nv, In nv newVoxels ->
         exists v i,
           In v (voxelsInPlane platform up (mkVector3 0 0 0))
           /\ JS.le i (JS.Math_round (JS.Math_abs (quantize 0.3) / 0.3)) = true
           /\ color nv = color v
           /\ position nv
              = Vec.add (Vec.copy (position v))
                        (Vec.multiplyScalar (Vec.copy up) (i * 0.3)).
Proof.
  apply (outward_push_provenance 2 up 0.3 pointedPlatform
           (set_voxels pointedPlatform (platform ++ map (raised 0.3) platform))
           (mkFace up) (mkVoxel (mkVector3 0 0 0) "#1e88e5"));
    vm_compute; reflexivity.
Defined.

End Frames.

(** ** The quantised normal is an axis *)

Section Axes.

Local Open Scope float_scope.

(** X7. Whatever the hit normal is, zero, NaN or infinite coordinates
    included, the normal that handlePointerEnter and checkGridSnapping
    store is one of the six unit vectors of the axes, and quantising
    it again gives it back. *)
Theorem normalizedNormal_is_axis (v : Vector3) :
  In (normalizedNormal v) axes
  /\ normalizedNormal (normalizedNormal v) = normalizedNormal v.
Proof.
  unfold normalizedNormal.
  destruct (JS.gt (JS.Math_abs (x v)) (JS.Math_abs (y v))
            && JS.gt (JS.Math_abs (x v)) (JS.Math_abs (z v)));
    [|destruct (JS.gt (JS.Math_abs (y v)) (JS.Math_abs (x v))
               && JS.gt (JS.Math_abs (y v)) (JS.Math_abs (z v)))].
  - destruct (JS.gt (x v) 0); (split; [simpl; tauto|vm_compute; reflexivity]).
  - destruct (JS.gt (y v) 0); (split; [simpl; tauto|vm_compute; reflexivity]).
  - destruct (JS.gt (z v) 0); (split; [simpl; tauto|vm_compute; reflexivity]).
Qed.

End Axes.

(** ** More on findVoxelsInSamePlane *)

Section MoreCoplanar.

Local Open Scope float_scope.

Lemma keysDistinct_snoc (n : Vector3) (l : list Voxel) (a : Voxel) :
  keysDistinct n l = true ->
  existsb (fun b => posKey_eqb (voxelKey n b) (voxelKey n a)) l = false ->
  keysDistinct n (l ++ [a]) = true.
Proof.
  induction l as [|b l IH]; simpl; [reflexivity|].
  rewrite andb_true_iff, negb_true_iff, orb_false_iff.
  intros [Hb Hl] [Hba Hla].
  rewrite existsb_app, Hb. simpl. rewrite Hba. simpl. auto.
Qed.

Lemma processed_has_rev (n : Vector3) (l : list Voxel) (k : list JS.fixedText) :
  processed_has (rev (map (voxelKey n) l)) k
  = existsb (fun b => posKey_eqb (voxelKey n b) k) l.
Proof.
  unfold processed_has. induction l as [|b l IH]; simpl; [reflexivity|].
  rewrite existsb_app, IH. simpl. rewrite orb_false_r. apply orb_comm.
Qed.

Lemma scanVoxel_unfold (vs : list Voxel) (p n : Vector3) (acc : Scan) (a : Voxel) :
  scanVoxel vs p n acc a
  = if onPlane n p (position a) then
      if processed_has (processedPositions acc) (voxelKey n a) then acc
      else if negb (hasNeighbor vs n (position a)) then
        mkScan (scan_voxels acc ++ [a]) (scan_faces acc ++ [faceOf n a])
               (voxelKey n a :: processedPositions acc)
      else acc
    else acc.
Proof. unfold scanVoxel, voxelKey, faceOf. now rewrite !copy_id. Qed.

Lemma scanVoxel_inv (vs : list Voxel) (p n : Vector3) (acc : Scan) (a : Voxel) :
  scanInv n acc -> scanInv n (scanVoxel vs p n acc a).
Proof.
  intros (Hf & Hk & Hd). rewrite scanVoxel_unfold.
  destruct (onPlane n p (position a)); [|now repeat split].
  destruct (processed_has _ _) eqn:Hhas; [now repeat split|].
  destruct (hasNeighbor vs n (position a)); simpl; [now repeat split|].
  repeat split; simpl.
  - now rewrite Hf, map_app.
  - now rewrite Hk, map_app, rev_app_distr.
  - apply keysDistinct_snoc; [exact Hd|].
    rewrite Hk in Hhas. now rewrite <- processed_has_rev.
Qed.

Lemma scan_inv (vs : list Voxel) (p n : Vector3) :
  forall (l : list Voxel) (acc : Scan),
    scanInv n acc -> scanInv n (fold_left (scanVoxel vs p n) l acc).
Proof.
  induction l as [|a l IH]; simpl; intros acc H; [exact H|].
  apply IH. now apply scanVoxel_inv.
Qed.

(** X8. The group findVoxelsInSamePlane returns has one face per
    voxel, in the same order, with the voxel's position, the normal
    and the voxel's colour; no two of its voxels print the same key;
    and when it is empty its centre is the zero vector. *)
Theorem findVoxelsInSamePlane_faces (vs : list Voxel) (p n : Vector3) :
  faces (findVoxelsInSamePlane vs p n)
  = map (faceOf n) (sel_voxels (findVoxelsInSamePlane vs p n))
  /\ keysDistinct n (sel_voxels (findVoxelsInSamePlane vs p n)) = true
  /\ (sel_voxels (findVoxelsInSamePlane vs p n) = [] ->
      center (findVoxelsInSamePlane vs p n) = mkVector3 0 0 0).
Proof.
  destruct (scan_inv vs p n vs (mkScan [] [] [])) as (Hf & Hk & Hd).
  { repeat split. }
  unfold findVoxelsInSamePlane. simpl. repeat split; auto.
  intros Hnil. rewrite Hf, Hnil. reflexivity.
Qed.

Lemma findVoxelsInSamePlane_faces_witness :
  center (findVoxelsInSamePlane platform (mkVector3 0 0.3 0) up) = mkVector3 0 0 0.
Proof.
  apply (proj2 (proj2 (findVoxelsInSamePlane_faces platform (mkVector3 0 0.3 0) up))).
  vm_compute; reflexivity.
Defined.

(** When the keys recorded so far differ from the keys of the voxels
    to come, and those from one another, the loop selects the voxels
    the filter of pushPullFace selects. *)
Lemma scan_filter (vs : list Voxel) (p n : Vector3) :
  forall (l : list Voxel) (acc : Scan),
    keysDistinct n l = true ->
    (forall k b, In k (processedPositions acc) -> In b l ->
                 posKey_eqb k (voxelKey n b) = false) ->
    (forall b, In b l ->
               posKey_eqb (voxelKey n b) (voxelKey n b) = true) ->
    scan_voxels (fold_left (scanVoxel vs p n) l acc)
    = scan_voxels acc
      ++ filter (fun voxel =>
                   if onPlane n p (position voxel)
                   then negb (hasNeighbor vs n (position voxel))
                   else false) l.
Proof.
  induction l as [|a l IH]; simpl; intros acc Hd Hfresh Hrefl.
  - now rewrite app_nil_r.
  - apply andb_true_iff in Hd. destruct Hd as [Ha Hl].
    apply negb_true_iff in Ha.
    assert (Hacc : processed_has (processedPositions acc) (voxelKey n a) = false).
    { unfold processed_has. apply existsb_false_In. intros k Hk.
      apply Hfresh; [exact Hk|now left]. }
    rewrite IH; [|exact Hl| |intros b Hb; apply Hrefl; now right].
    + rewrite scanVoxel_unfold.
      destruct (onPlane n p (position a)); [|reflexivity].
      rewrite Hacc.
      destruct (hasNeighbor vs n (position a)); simpl; [reflexivity|].
      now rewrite <- app_assoc.
    + intros k b Hk Hb. rewrite scanVoxel_unfold in Hk.
      destruct (onPlane n p (position a));
        [|apply Hfresh; [exact Hk|now right]].
      rewrite Hacc in Hk.
      destruct (hasNeighbor vs n (position a)); simpl in Hk;
        [apply Hfresh; [exact Hk|now right]|].
      destruct Hk as [<-|Hk]; [|apply Hfresh; [exact Hk|now right]].
      exact (proj1 (existsb_false_In _ _) Ha b Hb).
Qed.

Lemma scan_selects (vs : list Voxel) (p n : Vector3) :
  keysDistinct n vs = true ->
  scan_voxels (fold_left (scanVoxel vs p n) vs (mkScan [] [] []))
  = voxelsInPlane vs n p.
Proof.
  intros Hd. unfold voxelsInPlane.
  rewrite scan_filter; [reflexivity|exact Hd|intros k b []|].
  intros b _. apply posKey_eqb_refl.
Qed.

(** X9. When no voxel of the list prints the key of a later one,
    findVoxelsInSamePlane selects exactly the voxels the grouping of the
    store's pushPullFace selects, in the same order, and lists their
    faces in that order. *)
Theorem findVoxelsInSamePlane_is_voxelsInPlane (vs : list Voxel) (p n : Vector3) :
  keysDistinct n vs = true ->
  sel_voxels (findVoxelsInSamePlane vs p n) = voxelsInPlane vs n p
  /\ faces (findVoxelsInSamePlane vs p n) = map (faceOf n) (voxelsInPlane vs n p).
Proof.
  intros Hd.
  destruct (scan_inv vs p n vs (mkScan [] [] [])) as (Hf & _ & _).
  { repeat split. }
  unfold findVoxelsInSamePlane. simpl.
  rewrite Hf, (scan_selects vs p n Hd). split; reflexivity.
Qed.

Lemma findVoxelsInSamePlane_is_voxelsInPlane_witness :
  sel_voxels (findVoxelsInSamePlane (platform ++ map (raised 0.3) platform)
                (mkVector3 0 0.3 0) up)
  = voxelsInPlane (platform ++ map (raised 0.3) platform) up (mkVector3 0 0.3 0).
Proof.
  apply (proj1 (findVoxelsInSamePlane_is_voxelsInPlane
                  (platform ++ map (raised 0.3) platform) (mkVector3 0 0.3 0) up
                  ltac:(vm_compute; reflexivity))).
Defined.

End MoreCoplanar.

(** ** The first store's pushPullFace *)

Section FirstStoreProperties.

Local Open Scope float_scope.

Lemma fold_pushIfAbsent (cand : list Voxel) :
  forall acc : list Voxel,
  exists newVoxels,
    fold_left pushIfAbsent cand acc = acc ++ newVoxels
    /\ (List.length newVoxels <= List.length cand)%nat
    /\ (forall nv, In nv newVoxels -> In nv cand)
    /\ (positionUnique acc = true -> positionUnique (acc ++ newVoxels) = true).
Proof.
  induction cand as [|c cand IH]; intros acc; simpl.
  - exists []. rewrite app_nil_r. repeat split; auto; intros nv [].
  - unfold pushIfAbsent at 2.
    destruct (existsb _ acc) eqn:E; simpl.
    + destruct (IH acc) as (new & Heq & Hlen & Hin & Hu).
      exists new. repeat split; auto.
    + destruct (IH (acc ++ [c])) as (new & Heq & Hlen & Hin & Hu).
      exists (c :: new). rewrite Heq, <- app_assoc. simpl.
      repeat split.
      * lia.
      * intros nv [<-|Hnv]; auto.
      * intros Hacc. change (c :: new) with ([c] ++ new). rewrite app_assoc.
        apply Hu. now apply positionUnique_snoc.
Qed.

(** X10. The pushPullFace of the first store only appends: the list
    before the call is a prefix of the list after it, at most as many
    voxels are added as there were, each added voxel is the copy of a
    voxel moved by the normal times the quantised distance, with its
    colour; and if no two voxels had the same position before, none
    have after.  The copies are tested against the growing list, which
    the present pushPullFace does not do. *)
Theorem pushPullFace_simple_appends (n : Vector3) (d : JS.number) (s : StoreState) :
  exists newVoxels,
    voxels (pushPullFace_simple n d s) = voxels s ++ newVoxels
    /\ (List.length newVoxels <= List.length (voxels s))%nat
    /\ (forall nv, In nv newVoxels ->
                   exists v, In v (voxels s) /\ nv = movedCopy n (quantize d) v)
    /\ (positionUnique (voxels s) = true ->
        positionUnique (voxels (pushPullFace_simple n d s)) = true).
Proof.
  unfold pushPullFace_simple.
  destruct (JS.strictEq (quantize d) 0).
  - exists []. rewrite app_nil_r. repeat split; auto; [simpl; lia|intros nv []].
  - destruct (fold_pushIfAbsent (map (movedCopy n (quantize d)) (voxels s)) (voxels s))
      as (new & Heq & Hlen & Hin & Hu).
    exists new. simpl. rewrite Heq. repeat split; auto.
    + now rewrite length_map in Hlen.
    + intros nv Hnv. apply Hin in Hnv. apply in_map_iff in Hnv.
      destruct Hnv as [v [<- Hv]]. eauto.
Qed.

(** On the list where the present pushPullFace leaves two voxels at
    (0, 0.3, 0), the first one leaves one. *)
Example pushPullFace_simple_no_duplicate :
  countAt (mkVector3 0 0.3 0)
    (voxels (pushPullFace_simple up 0.3
               (addVoxel (mkVoxel (mkVector3 0 1e-20 0) "#1e88e5") initialState)))
  = 1%nat.
Proof. vm_compute. reflexivity. Qed.

End FirstStoreProperties.

(** ** The loops of VoxelWorld's pushPullFace *)

Section Loops.

Local Open Scope float_scope.

Context {A : Type}.

Lemma forEachLayer_layers (fuel : nat) (steps : JS.number) (layers : list JS.number)
      (body : Voxel -> JS.number -> A -> A) :
  JS.forUpTo fuel 1 steps = Some layers ->
  forall (selected : list Voxel) (acc : A),
    forEachLayer fuel steps selected body acc
    = Some (fold_left (fun a v => fold_left (fun a' i => body v i a') layers a)
                      selected acc).
Proof.
  intros H. unfold forEachLayer. rewrite H.
  induction selected as [|v l IH]; intros acc; simpl; [reflexivity|apply IH].
Qed.

Lemma forEachLayer_diverges (fuel : nat) (steps : JS.number)
      (body : Voxel -> JS.number -> A -> A) (v : Voxel) (l : list Voxel) (acc : A) :
  JS.forUpTo fuel 1 steps = None ->
  forEachLayer fuel steps (v :: l) body acc = None.
Proof.
  intros H. unfold forEachLayer. rewrite H. simpl.
  induction l as [|w l IH]; simpl; auto.
Qed.

Lemma nested_fold_preserves (P : A -> Prop) (layers : list JS.number)
      (body : Voxel -> JS.number -> A -> A) :
  (forall v i a, P a -> P (body v i a)) ->
  forall (selected : list Voxel) (acc : A),
    P acc ->
    P (fold_left (fun a v => fold_left (fun a' i => body v i a') layers a)
                 selected acc).
Proof.
  intros Hbody. induction selected as [|w sel IH]; intros acc Hacc; simpl; [exact Hacc|].
  apply IH. clear IH. revert acc Hacc.
  induction layers as [|i layers IH]; intros acc Hacc; simpl; [exact Hacc|].
  apply IH. now apply Hbody.
Qed.

Lemma forEachLayer_preserves (P : A -> Prop) (fuel : nat) (steps : JS.number)
      (body : Voxel -> JS.number -> A -> A) :
  (forall v i a, P a -> P (body v i a)) ->
  forall (selected : list Voxel) (acc r : A),
    P acc -> forEachLayer fuel steps selected body acc = Some r -> P r.
Proof.
  intros Hbody selected acc r Hacc H.
  destruct (JS.forUpTo fuel 1 steps) as [layers|] eqn:E.
  - rewrite (forEachLayer_layers _ _ _ _ E) in H. injection H as <-.
    now apply nested_fold_preserves.
  - destruct selected as [|v l].
    + unfold forEachLayer in H. simpl in H. now injection H as <-.
    + now rewrite forEachLayer_diverges in H.
Qed.

End Loops.

(** ** VoxelWorld's pushPullFace and the store's *)

Section Component.

Local Open Scope float_scope.

Lemma set_voxels_twice (s : StoreState) (l1 l2 : list Voxel) :
  set_voxels (set_voxels s l1) l2 = set_voxels s l2.
Proof. reflexivity. Qed.

Lemma filter_filter {A : Type} (f g : A -> bool) (l : list A) :
  filter f (filter g l) = filter (fun a => g a && f a) l.
Proof.
  induction l as [|a l IH]; simpl; [reflexivity|].
  destruct (g a); simpl; [destruct (f a)|]; now rewrite IH.
Qed.

Lemma removeAll_app (m1 m2 : list Vector3) (st : StoreState) :
  removeAll (m1 ++ m2) st = removeAll m2 (removeAll m1 st).
Proof. unfold removeAll. apply fold_left_app. Qed.

Lemma addAll_app (c1 c2 : list Voxel) (st : StoreState) :
  addAll (c1 ++ c2) st = addAll c2 (addAll c1 st).
Proof. unfold addAll. apply fold_left_app. Qed.

(** A run of removeVoxel calls filters the list once. *)
Lemma removeAll_filter (marks : list Vector3) :
  forall st,
    removeAll marks st
    = set_voxels st
        (filter (fun v => negb (existsb (fun p => isSamePosition (position v) p) marks))
                (voxels st)).
Proof.
  induction marks as [|p marks IH]; intros st.
  - simpl. rewrite filter_all. symmetry. apply set_voxels_same.
  - change (removeAll (p :: marks) st) with (removeAll marks (removeVoxel p st)).
    rewrite IH. unfold removeVoxel. rewrite set_voxels_twice. simpl.
    rewrite filter_filter. f_equal. apply filter_ext. intros v.
    now rewrite negb_orb.
Qed.

Lemma pullLayer_removeAll (snapshot : list Voxel) (n : Vector3) (v : Voxel)
      (i : JS.number) :
  forall st,
    pullLayer snapshot n v i st = removeAll (pulled snapshot n [i] v) st.
Proof.
  unfold pullLayer, pulled, removeAll. simpl. rewrite app_nil_r.
  induction snapshot as [|e snapshot IH]; intros st; simpl; [reflexivity|].
  destruct (within (position e) _); simpl; apply IH.
Qed.

Lemma pulled_cons (vs : list Voxel) (n : Vector3) (i : JS.number)
      (layers : list JS.number) (v : Voxel) :
  pulled vs n (i :: layers) v = pulled vs n [i] v ++ pulled vs n layers v.
Proof. unfold pulled. simpl. now rewrite app_nil_r. Qed.

Lemma pushed_cons (vs : list Voxel) (n : Vector3) (i : JS.number)
      (layers : list JS.number) (v : Voxel) :
  pushed vs n (i :: layers) v = pushed vs n [i] v ++ pushed vs n layers v.
Proof. unfold pushed. simpl. now rewrite app_nil_r. Qed.

Lemma pull_nested (snapshot : list Voxel) (n : Vector3) (layers : list JS.number) :
  forall (selected : list Voxel) (st : StoreState),
    fold_left (fun a v => fold_left (fun a' i => pullLayer snapshot n v i a') layers a)
              selected st
    = removeAll (flat_map (pulled snapshot n layers) selected) st.
Proof.
  assert (Hin : forall v ls st,
             fold_left (fun a' i => pullLayer snapshot n v i a') ls st
             = removeAll (pulled snapshot n ls v) st).
  { intros v. induction ls as [|i ls IH]; intros st; [reflexivity|].
    rewrite pulled_cons, removeAll_app, <- pullLayer_removeAll. exact (IH _). }
  induction selected as [|v sel IH]; intros st; simpl; [reflexivity|].
  now rewrite IH, Hin, removeAll_app.
Qed.

Lemma pushLayer_addAll (snapshot : list Voxel) (n : Vector3) (v : Voxel)
      (i : JS.number) (st : StoreState) :
  pushLayer snapshot n v i st = addAll (pushed snapshot n [i] v) st.
Proof.
  unfold pushLayer, pushed, addAll. simpl. rewrite app_nil_r.
  now destruct (existsb _ snapshot).
Qed.

Lemma push_nested (snapshot : list Voxel) (n : Vector3) (layers : list JS.number) :
  forall (selected : list Voxel) (st : StoreState),
    fold_left (fun a v => fold_left (fun a' i => pushLayer snapshot n v i a') layers a)
              selected st
    = addAll (flat_map (pushed snapshot n layers) selected) st.
Proof.
  assert (Hin : forall v ls st,
             fold_left (fun a' i => pushLayer snapshot n v i a') ls st
             = addAll (pushed snapshot n ls v) st).
  { intros v. induction ls as [|i ls IH]; intros st; [reflexivity|].
    rewrite pushed_cons, addAll_app, <- pushLayer_addAll. exact (IH _). }
  induction selected as [|v sel IH]; intros st; simpl; [reflexivity|].
  now rewrite IH, Hin, addAll_app.
Qed.

Lemma positionUnique_app_head (l : list Voxel) (c : Voxel) (r : list Voxel) :
  positionUnique (l ++ c :: r) = true ->
  existsb (fun w => isSamePosition (position w) (position c)) l = false.
Proof.
  induction l as [|a l IH]; simpl; [reflexivity|].
  rewrite andb_true_iff, negb_true_iff, existsb_app. simpl.
  rewrite !orb_false_iff. intros [(_ & Hac & _) Hl]. auto.
Qed.

(** A run of addVoxel calls appends every voxel when the list it
    builds holds no position twice. *)
Lemma addAll_unique (staged : list Voxel) :
  forall st,
    positionUnique (voxels st ++ staged) = true ->
    addAll staged st = set_voxels st (voxels st ++ staged).
Proof.
  induction staged as [|c staged IH]; intros st H.
  - simpl. rewrite app_nil_r. symmetry. apply set_voxels_same.
  - change (addAll (c :: staged) st) with (addAll staged (addVoxel c st)).
    rewrite (addVoxel_free st c (positionUnique_app_head _ _ _ H)).
    assert (Hc : mkVoxel (mkVector3 (x (position c)) (y (position c)) (z (position c)))
                         (color c) = c).
    { destruct c as [[cx cy cz] cc]. reflexivity. }
    rewrite Hc. rewrite IH.
    + rewrite set_voxels_twice. simpl. now rewrite <- app_assoc.
    + simpl. now rewrite <- app_assoc.
Qed.

Lemma within_no_nan (p q : Vector3) : within p q = true -> hasNaN p = false.
Proof.
  unfold within, hasNaN, JS.lt, JS.Math_abs. rewrite !andb_true_iff.
  intros [[Hx Hy] Hz].
  destruct (close_not_nan _ _ _ Hx) as [-> _].
  destruct (close_not_nan _ _ _ Hy) as [-> _].
  destruct (close_not_nan _ _ _ Hz) as [-> _]. reflexivity.
Qed.

Lemma samePosKey_isSamePosition (k q : Vector3) :
  hasNaN k = false -> samePosKey k q = isSamePosition q k.
Proof.
  unfold hasNaN, samePosKey, isSamePosition, JS.sameText, JS.strictEq.
  rewrite !orb_false_iff. intros [[-> ->] ->]. simpl.
  rewrite !orb_false_r, (eqb_sym (x k)), (eqb_sym (y k)), (eqb_sym (z k)).
  reflexivity.
Qed.

Lemma pulled_no_nan (vs group : list Voxel) (n : Vector3) (layers : list JS.number)
      (k : Vector3) :
  In k (flat_map (pulled vs n layers) group) -> hasNaN k = false.
Proof.
  intros Hk. apply in_flat_map in Hk. destruct Hk as [v [_ Hk]].
  unfold pulled in Hk. apply in_flat_map in Hk. destruct Hk as [i [_ Hk]].
  apply in_map_iff in Hk. destruct Hk as [e [<- He]].
  apply filter_In in He. destruct He as [_ He]. exact (within_no_nan _ _ He).
Qed.

(** The texts of the marked positions name the voxels removeVoxel
    removes. *)
Lemma has_pulled_isSamePosition (vs group : list Voxel) (n : Vector3)
      (layers : list JS.number) (q : Vector3) :
  has (flat_map (pulled vs n layers) group) q
  = existsb (fun p => isSamePosition q p) (flat_map (pulled vs n layers) group).
Proof.
  unfold has.
  assert (H : forall marks,
             (forall k, In k marks -> hasNaN k = false) ->
             existsb (fun k => samePosKey k q) marks
             = existsb (fun p => isSamePosition q p) marks).
  { induction marks as [|k marks IH]; intros Hm; simpl; [reflexivity|].
    rewrite IH by (intros k' Hk'; apply Hm; now right).
    now rewrite samePosKey_isSamePosition by (apply Hm; now left). }
  apply H. intros k Hk. exact (pulled_no_nan _ _ _ _ _ Hk).
Qed.

(** For a pull, VoxelWorld's pushPullFace on the group and the normal
    of the selection is the store's pushPullFace. *)
Lemma world_pull_agrees (fuel : nat) (n : Vector3) (d : JS.number)
        (s : StoreState) (f : Face) (h : Voxel) :
  selectedFace s = Some f ->
  hoveredVoxel s = Some h ->
  JS.lt (quantize d) 0 = true ->
  JS.lt (JS.Math_abs (quantize d)) 0.01 = false ->
  worldPushPullFace fuel (voxels s)
    (voxelsInPlane (voxels s) (normal f) (position h)) (normal f) (quantize d) s
  = pushPullFace fuel n d s.
Proof.
  intros Hf Hh Hlt Hbig. unfold worldPushPullFace, pushPullFace.
  rewrite Hbig. unfold JS.gt, JS.lt, JS.strictEq in *.
  destruct (quantize d =? 0) eqn:Hz.
  { rewrite (eqb_not_lt _ _ Hz) in Hlt. discriminate. }
  rewrite (ltb_asym _ _ Hlt), Hlt, Hf, Hh. cbv beta iota zeta.
  remember (voxelsInPlane (voxels s) (normal f) (position h)) as group eqn:Hg.
  destruct group as [|v0 group]; [reflexivity|].
  change (List.length (v0 :: group) =? 0)%nat with false. cbv iota.
  destruct (JS.forUpTo fuel 1 (JS.Math_round (JS.Math_abs (quantize d) / 0.3)))
    as [layers|] eqn:E.
  - rewrite (forEachLayer_layers _ _ _ _ E), pull_nested, removeAll_filter.
    rewrite (filter_ext
               (fun voxel =>
                  negb (has (flat_map (pulled (voxels s) (normal f) layers) (v0 :: group))
                            (position voxel)))
               (fun voxel =>
                  negb (existsb (fun p => isSamePosition (position voxel) p)
                          (flat_map (pulled (voxels s) (normal f) layers) (v0 :: group)))))
      by (intros a; now rewrite has_pulled_isSamePosition).
    destruct (flat_map (pulled (voxels s) (normal f) layers) (v0 :: group))
      as [|k marks]; [|reflexivity].
    simpl. now rewrite filter_all.
  - now rewrite forEachLayer_diverges.
Qed.

(** For a push, it returns the state the store's pushPullFace returns
    when that state holds no position twice: then every staged voxel
    passes the test of addVoxel. *)
Lemma world_push_agrees (fuel : nat) (n : Vector3) (d : JS.number)
        (s s' : StoreState) (f : Face) (h : Voxel) :
  pushPullFace fuel n d s = Some s' ->
  selectedFace s = Some f ->
  hoveredVoxel s = Some h ->
  JS.gt (quantize d) 0 = true ->
  JS.lt (JS.Math_abs (quantize d)) 0.01 = false ->
  positionUnique (voxels s') = true ->
  worldPushPullFace fuel (voxels s)
    (voxelsInPlane (voxels s) (normal f) (position h)) (normal f) (quantize d) s
  = Some s'.
Proof.
  intros H Hf Hh Hgt Hbig Hu. unfold worldPushPullFace. unfold pushPullFace in H.
  rewrite Hbig, Hgt. rewrite Hgt in H.
  unfold JS.gt, JS.lt, JS.strictEq in *.
  destruct (quantize d =? 0) eqn:Hz.
  { rewrite eqb_sym in Hz. rewrite (eqb_not_lt _ _ Hz) in Hgt. discriminate. }
  rewrite Hf, Hh in H. cbv beta iota zeta in H.
  remember (voxelsInPlane (voxels s) (normal f) (position h)) as group eqn:Hg.
  destruct group as [|v0 group]; [exact H|].
  change (List.length (v0 :: group) =? 0)%nat with false in H. cbv iota in H.
  destruct (JS.forUpTo fuel 1 (JS.Math_round (JS.Math_abs (quantize d) / 0.3)))
    as [layers|] eqn:E; [|discriminate].
  injection H as <-. simpl in Hu.
  rewrite (forEachLayer_layers _ _ _ _ E), push_nested.
  now rewrite addAll_unique.
Qed.

Lemma above_bound_sign (a : float) :
  (0.01 <? abs a) = true -> (0 <? a) = true \/ (a <? 0) = true.
Proof. intros H. exact (abs_gt_sign a 0.01 H). Qed.

(** X11. VoxelWorld's pushPullFace does to the store what the store's
    own pushPullFace does.  Called on the group and the normal of the
    selection with the quantised distance, its magnitude above 0.01:
    for a pull it returns what the store's pushPullFace returns, and
    does not return when that one does not; for a push it returns the
    state the store's pushPullFace returns whenever that state holds no
    position twice. *)
Theorem worldPushPullFace_agrees (fuel : nat) (n : Vector3) (d : JS.number)
        (s : StoreState) (f : Face) (h : Voxel) :
  selectedFace s = Some f ->
  hoveredVoxel s = Some h ->
  JS.gt (JS.Math_abs (quantize d)) 0.01 = true ->
  (JS.lt (quantize d) 0 = true ->
   worldPushPullFace fuel (voxels s)
     (voxelsInPlane (voxels s) (normal f) (position h)) (normal f) (quantize d) s
   = pushPullFace fuel n d s)
  /\ (forall s',
         pushPullFace fuel n d s = Some s' ->
         positionUnique (voxels s') = true ->
         worldPushPullFace fuel (voxels s)
           (voxelsInPlane (voxels s) (normal f) (position h)) (normal f) (quantize d) s
         = Some s').
Proof.
  intros Hf Hh Hbig. unfold JS.gt, JS.Math_abs in Hbig.
  assert (Hsmall : JS.lt (JS.Math_abs (quantize d)) 0.01 = false)
    by (exact (ltb_asym _ _ Hbig)).
  split.
  - intros Hlt. now apply world_pull_agrees.
  - intros s' H Hu. destruct (above_bound_sign _ Hbig) as [Hs|Hs].
    + exact (world_push_agrees fuel n d s s' f h H Hf Hh Hs Hsmall Hu).
    + rewrite (world_pull_agrees fuel n d s f h Hf Hh Hs Hsmall). exact H.
Qed.

Lemma worldPushPullFace_agrees_witness :
  worldPushPullFace 2 (platform ++ map (raised 0.3) platform)
    (voxelsInPlane (platform ++ map (raised 0.3) platform) up (mkVector3 0 0.3 0))
    up (quantize (- 0.3))
    (pointAt (mkVector3 0 0.3 0) up "#1e88e5"
       (set_voxels pointedPlatform (platform ++ map (raised 0.3) platform)))
  = pushPullFace 2 up (- 0.3)
      (pointAt (mkVector3 0 0.3 0) up "#1e88e5"
         (set_voxels pointedPlatform (platform ++ map (raised 0.3) platform)))
  /\ worldPushPullFace 2 platform (voxelsInPlane platform up (mkVector3 0 0 0))
       up (quantize 0.3) pointedPlatform
     = Some (set_voxels pointedPlatform (platform ++ map (raised 0.3) platform)).
Proof.
  split.
  - apply (proj1 (worldPushPullFace_agrees 2 up (- 0.3)
                    (pointAt (mkVector3 0 0.3 0) up "#1e88e5"
                       (set_voxels pointedPlatform
                          (platform ++ map (raised 0.3) platform)))
                    (mkFace up) (mkVoxel (mkVector3 0 0.3 0) "#1e88e5")
                    eq_refl eq_refl ltac:(vm_compute; reflexivity)));
      vm_compute; reflexivity.
  - apply (proj2 (worldPushPullFace_agrees 2 up 0.3 pointedPlatform
                    (mkFace up) (mkVoxel (mkVector3 0 0 0) "#1e88e5")
                    eq_refl eq_refl ltac:(vm_compute; reflexivity)));
      vm_compute; reflexivity.
Defined.

Lemma addVoxel_positionUnique (v : Voxel) (s : StoreState) :
  positionUnique (voxels s) = true -> positionUnique (voxels (addVoxel v s)) = true.
Proof.
  intros H. unfold addVoxel.
  destruct (existsb _ (voxels s)) eqn:E; simpl; [exact H|].
  now apply positionUnique_snoc.
Qed.

Lemma removeAll_positionUnique (marks : list Vector3) (s : StoreState) :
  positionUnique (voxels s) = true -> positionUnique (voxels (removeAll marks s)) = true.
Proof.
  intros H. rewrite removeAll_filter. simpl. now apply positionUnique_filter.
Qed.

(** X12. VoxelWorld's pushPullFace never puts two voxels at the same
    position: whatever snapshot, group, normal and distance it is
    called with, if no two voxels of the store had the same position
    (by [isSamePosition]) before a call that returns, none have after
    it; every voxel goes through addVoxel. *)
Theorem worldPushPullFace_keeps_unique (fuel : nat) (snapshot selected : list Voxel)
        (n : Vector3) (d : JS.number) (s s' : StoreState) :
  worldPushPullFace fuel snapshot selected n d s = Some s' ->
  positionUnique (voxels s) = true ->
  positionUnique (voxels s') = true.
Proof.
  unfold worldPushPullFace. intros H Hs.
  destruct (JS.lt (JS.Math_abs d) 0.01); [now injection H as <-|].
  destruct (JS.gt d 0).
  - refine (forEachLayer_preserves
              (fun st => positionUnique (voxels st) = true) _ _ _ _ _ _ _ Hs H).
    intros v i a Ha. unfold pushLayer.
    destruct (negb _); [now apply addVoxel_positionUnique|exact Ha].
  - destruct (JS.lt d 0); [|now injection H as <-].
    refine (forEachLayer_preserves
              (fun st => positionUnique (voxels st) = true) _ _ _ _ _ _ _ Hs H).
    intros v i a Ha. rewrite pullLayer_removeAll.
    now apply removeAll_positionUnique.
Qed.

(** The voxels at (0,0,0) and (0,1e-20,0) pushed up through VoxelWorld:
    one voxel at (0, 0.3, 0), where the store's pushPullFace leaves
    two. *)
Lemma worldPushPullFace_keeps_unique_witness :
  exists s',
    worldPushPullFace 2
      (voxels (addVoxel (mkVoxel (mkVector3 0 1e-20 0) "#1e88e5") initialState))
      (voxelsInPlane
         (voxels (addVoxel (mkVoxel (mkVector3 0 1e-20 0) "#1e88e5") initialState))
         up (mkVector3 0 0 0))
      up 0.3
      (addVoxel (mkVoxel (mkVector3 0 1e-20 0) "#1e88e5") initialState)
    = Some s'
    /\ positionUnique (voxels s') = true
    /\ countAt (mkVector3 0 0.3 0) (voxels s') = 1%nat.
Proof.
  eexists. split; [vm_compute; reflexivity|]. split.
  - eapply (worldPushPullFace_keeps_unique 2
              (voxels (addVoxel (mkVoxel (mkVector3 0 1e-20 0) "#1e88e5") initialState))
              (voxelsInPlane
                 (voxels (addVoxel (mkVoxel (mkVector3 0 1e-20 0) "#1e88e5")
                            initialState))
                 up (mkVector3 0 0 0))
              up 0.3
              (addVoxel (mkVoxel (mkVector3 0 1e-20 0) "#1e88e5") initialState)).
    + vm_compute; reflexivity.
    + vm_compute; reflexivity.
  - vm_compute; reflexivity.
Defined.

End Component.

(** ** What the pointer handlers keep *)

Section PointerEvents.

Local Open Scope float_scope.

Lemma farApart_snoc (l : list Voxel) (v : Voxel) :
  farApart l = true ->
  existsb (fun w => within (position w) (position v)) l = false ->
  farApart (l ++ [v]) = true.
Proof.
  induction l as [|a l IH]; simpl; [reflexivity|].
  rewrite andb_true_iff, negb_true_iff, orb_false_iff.
  intros [Ha Hl] [Hav Hlv].
  rewrite existsb_app, Ha. simpl. rewrite Hav. simpl. auto.
Qed.

Lemma farApart_filter (keep : Voxel -> bool) (l : list Voxel) :
  farApart l = true -> farApart (filter keep l) = true.
Proof.
  induction l as [|a l IH]; simpl; [reflexivity|].
  rewrite andb_true_iff, negb_true_iff. intros [Ha Hl].
  destruct (keep a); simpl; auto.
  rewrite (existsb_filter_false _ keep l Ha). simpl. auto.
Qed.

Lemma handleSceneClick_farApart (t : option Voxel) (s : StoreState) :
  farApart (voxels s) = true ->
  farApart (voxels (handleSceneClick t (voxels s) s)) = true.
Proof.
  intros H. unfold handleSceneClick.
  destruct t as [temp|]; [|exact H].
  destruct (ToolMode_eqb (toolMode s) mode_add); [|exact H].
  destruct (existsb (fun voxel => within (position voxel) (position temp)) (voxels s))
    eqn:E; simpl; [exact H|].
  unfold addVoxel.
  destruct (existsb (fun v => isSamePosition (position v) _) (voxels s));
    simpl; [exact H|].
  apply farApart_snoc; [exact H|exact E].
Qed.

Lemma uiDispatch_farApart (fuel : nat) (e : UIEvent) (s s' : StoreState) :
  notOutwardEvent e ->
  uiDispatch fuel e s = Some s' ->
  farApart (voxels s) = true ->
  farApart (voxels s') = true.
Proof.
  destruct e as [t|isPreview p|m| |pps]; simpl; intros Hout H Hs.
  - injection H as <-. now apply handleSceneClick_farApart.
  - injection H as <-. unfold voxelHandleClick.
    destruct (_ && _); [|exact Hs]. simpl. now apply farApart_filter.
  - injection H as <-. exact Hs.
  - injection H as <-. vm_compute. reflexivity.
  - unfold handleMouseUp in H.
    destruct (_ && _); [|now injection H as <-].
    unfold worldPushPullFace in H. rewrite Hout in H.
    destruct (JS.lt (JS.Math_abs (pp_distance pps)) 0.01); [now injection H as <-|].
    destruct (JS.lt (pp_distance pps) 0); [|now injection H as <-].
    refine (forEachLayer_preserves
              (fun st => farApart (voxels st) = true) _ _ _ _ _ _ _ Hs H).
    intros v i a Ha. rewrite pullLayer_removeAll, removeAll_filter. simpl.
    now apply farApart_filter.
Qed.

(** X13. Through the pointer handlers the voxels stay apart: from the
    initial platform, along every sequence of scene clicks (adding the
    preview voxel), voxel clicks (removing), tool and reset buttons and
    push-pull releases that do not push outward, no voxel of the store
    is within 0.01 of another on every coordinate.  handleSceneClick
    tests the preview position with the 0.01 that addVoxel itself does
    not use. *)
Theorem pointer_events_keep_apart (fuel : nat) (events : list UIEvent) :
  forall s,
    Forall notOutwardEvent events ->
    uiRun fuel events initialState = Some s ->
    farApart (voxels s) = true.
Proof.
  assert (H : forall s0 s, Forall notOutwardEvent events ->
                           uiRun fuel events s0 = Some s ->
                           farApart (voxels s0) = true -> farApart (voxels s) = true).
  { induction events as [|e events IH]; simpl; intros s0 s Hout H Hs.
    - now injection H as <-.
    - inversion Hout as [|? ? He Hevents]; subst.
      destruct (uiDispatch fuel e s0) as [s1|] eqn:E; [|discriminate].
      eapply IH; eauto. eapply uiDispatch_farApart; eauto. }
  intros s Hout Hrun. apply (H initialState s Hout Hrun). vm_compute. reflexivity.
Qed.

Lemma pointer_events_keep_apart_witness :
  farApart
    (voxels (voxelHandleClick false (mkVector3 0.3 0 0)
               (setToolMode mode_remove
                  (handleSceneClick (Some (mkVoxel (mkVector3 0.005 0 0) "#00ff00"))
                     platform
                     (handleSceneClick (Some (mkVoxel (mkVector3 0 0.3 0) "#00ff00"))
                        platform initialState)))))
  = true.
Proof.
  apply (pointer_events_keep_apart 0
           [ SceneClick (Some (mkVoxel (mkVector3 0 0.3 0) "#00ff00"));
             SceneClick (Some (mkVoxel (mkVector3 0.005 0 0) "#00ff00"));
             ToolButton mode_remove;
             VoxelClick false (mkVector3 0.3 0 0) ]).
  - repeat constructor.
  - vm_compute. reflexivity.
Defined.

End PointerEvents.

(** ** A whole push-pull gesture *)

Section Gesture.

Local Open Scope float_scope.

Lemma clone_voxels (l : list Voxel) :
  map (fun v => mkVoxel (Vec.copy (position v)) (color v)) l = l.
Proof.
  rewrite <- (map_id l) at 2. apply map_ext.
  intros [[vx vy vz] c]. reflexivity.
Qed.

(** X14. A push-pull gesture does what the store's pushPullFace does.
    With the hovered voxel and the selected face of the store as the
    local hover, in push-pull mode, no two voxels printing the same
    key: pressing the button on the face, dragging to a distance whose
    quantised value is above 0.01 in magnitude and releasing returns
    the state the store's pushPullFace returns for that distance,
    whenever that state holds no position twice. *)
Theorem gesture_is_pushPullFace (fuel : nat) (n start : Vector3) (d : JS.number)
        (s s' : StoreState) (f : Face) (h : Voxel) :
  pushPullFace fuel n d s = Some s' ->
  positionUnique (voxels s') = true ->
  selectedFace s = Some f ->
  hoveredVoxel s = Some h ->
  toolMode s = mode_pushpull ->
  keysDistinct (normal f) (voxels s) = true ->
  JS.gt (JS.Math_abs (quantize d)) 0.01 = true ->
  handleMouseUp fuel
    (updatePushPullDistance d
       (handleMouseDown start
          (Some (mkHover (Vec.copy (position h)) (Vec.copy (normal f))))
          (voxels s) (toolMode s) idlePushPull))
    (voxels s) s
  = Some s'.
Proof.
  intros H Hu Hf Hh Hmode Hkeys Hbig.
  unfold JS.gt, JS.Math_abs in Hbig.
  assert (Hsmall : JS.lt (JS.Math_abs (quantize d)) 0.01 = false)
    by (exact (ltb_asym _ _ Hbig)).
  assert (Hz : JS.strictEq (quantize d) 0 = false).
  { unfold JS.strictEq. destruct (quantize d =? 0) eqn:Hz; [|reflexivity].
    destruct (above_bound_sign _ Hbig) as [Hs|Hs].
    - rewrite eqb_sym in Hz. rewrite (eqb_not_lt _ _ Hz) in Hs. discriminate.
    - rewrite (eqb_not_lt _ _ Hz) in Hs. discriminate. }
  unfold handleMouseDown. rewrite Hmode. simpl ToolMode_eqb. cbv iota.
  simpl active. cbv iota beta zeta. simpl hover_normal. simpl hover_position.
  rewrite !copy_id.
  unfold findVoxelsInSamePlane. cbv zeta. simpl sel_voxels.
  rewrite (scan_selects _ (position h) _ Hkeys).
  destruct (0 <? List.length (voxelsInPlane (voxels s) (normal f) (position h)))%nat
    eqn:Hlen.
  - unfold updatePushPullDistance. simpl pp_distance. rewrite Hz.
    unfold handleMouseUp. simpl active. simpl pp_distance. simpl pp_normal.
    simpl selectedVoxels. unfold JS.gt, JS.Math_abs. rewrite Hbig. simpl andb. cbv iota.
    rewrite clone_voxels.
    destruct (above_bound_sign _ Hbig) as [Hs|Hs].
    + exact (world_push_agrees fuel n d s s' f h H Hf Hh Hs Hsmall Hu).
    + rewrite (world_pull_agrees fuel n d s f h Hf Hh Hs Hsmall).
      exact H.
  - (* nothing on the face: the press arms nothing, and the store does nothing *)
    unfold updatePushPullDistance. simpl pp_distance. rewrite Hz.
    unfold handleMouseUp. simpl.
    unfold pushPullFace in H. rewrite Hz, Hf, Hh in H. cbv beta iota zeta in H.
    apply Nat.ltb_ge in Hlen.
    destruct (voxelsInPlane (voxels s) (normal f) (position h)) as [|v0 group];
      [exact H|simpl in Hlen; lia].
Qed.

Lemma gesture_is_pushPullFace_witness :
  handleMouseUp 2
    (updatePushPullDistance (- 0.3)
       (handleMouseDown (mkVector3 100 200 0)
          (Some (mkHover (mkVector3 0 0.3 0) up))
          (platform ++ map (raised 0.3) platform) mode_pushpull idlePushPull))
    (platform ++ map (raised 0.3) platform)
    (setToolMode mode_pushpull
       (pointAt (mkVector3 0 0.3 0) up "#1e88e5"
          (set_voxels pointedPlatform (platform ++ map (raised 0.3) platform))))
  = Some (set_voxels
            (setToolMode mode_pushpull
               (pointAt (mkVector3 0 0.3 0) up "#1e88e5"
                  (set_voxels pointedPlatform (platform ++ map (raised 0.3) platform))))
            (map (raised 0.3) platform)).
Proof.
  apply (gesture_is_pushPullFace 2 up (mkVector3 100 200 0) (- 0.3)
           (setToolMode mode_pushpull
              (pointAt (mkVector3 0 0.3 0) up "#1e88e5"
                 (set_voxels pointedPlatform (platform ++ map (raised 0.3) platform))))
           _ (mkFace up) (mkVoxel (mkVector3 0 0.3 0) "#1e88e5"));
    vm_compute; reflexivity.
Defined.

End Gesture.

(** ** Distances that are not numbers of layers *)

Section OddDistances.

Local Open Scope float_scope.

Lemma Prim2SF_nan_is_nan (a : float) : Prim2SF a = S754_nan -> is_nan a = true.
Proof.
  intros H. unfold is_nan. rewrite FloatAxioms.eqb_spec, H. reflexivity.
Qed.

Lemma quantize_nan (d : float) : is_nan d = true -> is_nan (quantize d) = true.
Proof.
  intros H. apply is_nan_Prim2SF in H.
  assert (Hdiv : Prim2SF (d / 0.3) = S754_nan).
  { rewrite FloatAxioms.div_spec, H. reflexivity. }
  unfold quantize, JS.Math_round. rewrite Hdiv.
  apply Prim2SF_nan_is_nan. rewrite FloatAxioms.mul_spec, Hdiv. reflexivity.
Qed.

Lemma nan_ltb_l (a b : float) : is_nan a = true -> (a <? b) = false.
Proof.
  intros H. rewrite FloatAxioms.ltb_spec, (is_nan_Prim2SF _ H). reflexivity.
Qed.

Lemma nan_ltb_r (a b : float) : is_nan b = true -> (a <? b) = false.
Proof.
  intros H. rewrite FloatAxioms.ltb_spec, (is_nan_Prim2SF _ H).
  unfold SFltb. now destruct (Prim2SF a).
Qed.

(** X15. With a distance that is NaN, pushPullFace returns the state
    it was given, whatever is selected: NaN is not zero, not above
    zero and not below it, so neither branch runs. *)
Theorem pushPullFace_nan_distance (fuel : nat) (n : Vector3) (d : JS.number)
        (s : StoreState) :
  is_nan d = true -> pushPullFace fuel n d s = Some s.
Proof.
  intros H. apply quantize_nan in H. unfold pushPullFace.
  unfold JS.strictEq, JS.gt, JS.lt.
  rewrite (nan_eqb_l _ 0 H), (nan_ltb_r 0 _ H), (nan_ltb_l _ 0 H).
  destruct (selectedFace s); [|reflexivity].
  destruct (hoveredVoxel s); [|reflexivity].
  destruct (List.length _ =? 0)%nat; [reflexivity|].
  now rewrite set_voxels_same.
Qed.

Lemma pushPullFace_nan_distance_witness :
  pushPullFace 0 up nan pointedPlatform = Some pointedPlatform.
Proof. apply pushPullFace_nan_distance. vm_compute; reflexivity. Defined.

Lemma shr_1_nonneg (r : shr_record) : (0 <= shr_m r)%Z -> (0 <= shr_m (shr_1 r))%Z.
Proof.
  destruct r as [m r s]. destruct m as [|p|p]; try destruct p; simpl; lia.
Qed.

Lemma iter_shr_1_nonneg (p : positive) :
  forall r, (0 <= shr_m r)%Z -> (0 <= shr_m (iter_pos shr_1 p r))%Z.
Proof.
  induction p as [p IH|p IH|]; intros r H; simpl.
  - apply IH, IH. now apply shr_1_nonneg.
  - now apply IH, IH.
  - now apply shr_1_nonneg.
Qed.

Lemma shr_fexp_nonneg (m e : Z) (l : location) :
  (0 <= m)%Z -> (0 <= shr_m (fst (shr_fexp prec emax m e l)))%Z.
Proof.
  intros H. unfold shr_fexp, shr.
  assert (Hm : shr_m (shr_record_of_loc m l) = m) by (now destruct l as [|[ | | ]]).
  destruct (_ - e)%Z; simpl; rewrite <- Hm in H; auto.
  now apply iter_shr_1_nonneg.
Qed.

Lemma round_nearest_even_nonneg (m : Z) (l : location) :
  (0 <= m)%Z -> (0 <= round_nearest_even m l)%Z.
Proof.
  intros H. destruct l as [|[ | | ]]; simpl; try destruct (Z.even m); lia.
Qed.

(** Rounding a non-negative mantissa gives a zero, a finite number or
    an infinity. *)
Lemma binary_round_aux_not_nan (sx : bool) (mx ex : Z) (lx : location) :
  (0 <= mx)%Z -> binary_round_aux prec emax sx mx ex lx <> S754_nan.
Proof.
  intros H. unfold binary_round_aux.
  pose proof (shr_fexp_nonneg mx ex lx H) as H1.
  destruct (shr_fexp prec emax mx ex lx) as [mrs' e']. simpl in H1.
  pose proof (shr_fexp_nonneg _ e' loc_Exact
                (round_nearest_even_nonneg _ (loc_of_shr_record mrs') H1)) as H2.
  destruct (shr_fexp prec emax _ e' loc_Exact) as [mrs'' e'']. simpl in H2.
  destruct (shr_m mrs'') as [|p|p]; try discriminate; [|lia].
  destruct (e'' <=? emax - prec)%Z; discriminate.
Qed.

Lemma binary_normalize_not_nan (m e : Z) (sz : bool) :
  binary_normalize prec emax m e sz <> S754_nan.
Proof.
  unfold binary_normalize, binary_round.
  destruct m as [|p|p]; [discriminate| |];
    destruct (shl_align _ _ _) as [mz ez]; now apply binary_round_aux_not_nan.
Qed.

Lemma succ_not_nan (i : float) :
  Prim2SF i <> S754_nan -> Prim2SF (i + 1) <> S754_nan.
Proof.
  intros H. rewrite FloatAxioms.add_spec.
  change (Prim2SF 1) with (S754_finite false 4503599627370496 (-52)).
  destruct (Prim2SF i) as [s|s| |s m e]; try discriminate; [congruence|].
  unfold SF64add, SFadd. apply binary_normalize_not_nan.
Qed.

(** The loop [for (let i = ...; i <= Infinity; i++)] does not end. *)
Lemma forUpTo_infinity (fuel : nat) :
  forall i, Prim2SF i <> S754_nan -> JS.forUpTo fuel i infinity = None.
Proof.
  induction fuel as [|fuel IH]; intros i Hi; simpl; [reflexivity|].
  assert (Hle : (i <=? infinity) = true).
  { rewrite FloatAxioms.leb_spec.
    change (Prim2SF infinity) with (S754_infinity false).
    destruct (Prim2SF i) as [s|s| |s m e]; try destruct s; try reflexivity.
    congruence. }
  rewrite Hle, (IH _ (succ_not_nan _ Hi)). reflexivity.
Qed.

(** X16. With an infinite distance and a voxel on the selected face,
    pushPullFace does not return: the number of layers is infinite and
    the loop over the layers never ends. *)
Theorem pushPullFace_infinite_distance (fuel : nat) (n : Vector3) (s : StoreState)
        (f : Face) (h : Voxel) :
  selectedFace s = Some f ->
  hoveredVoxel s = Some h ->
  voxelsInPlane (voxels s) (normal f) (position h) <> [] ->
  pushPullFace fuel n infinity s = None
  /\ pushPullFace fuel n neg_infinity s = None.
Proof.
  intros Hf Hh Hg.
  assert (H1 : Prim2SF 1 <> S754_nan) by discriminate.
  split; unfold pushPullFace; rewrite Hf, Hh.
  - replace (quantize infinity) with infinity by (vm_compute; reflexivity).
    change (JS.strictEq infinity 0) with false.
    change (JS.gt infinity 0) with true.
    replace (JS.Math_round (JS.Math_abs infinity / 0.3)) with infinity
      by (vm_compute; reflexivity).
    cbv beta iota zeta.
    destruct (voxelsInPlane (voxels s) (normal f) (position h)); [congruence|].
    simpl. now rewrite (forUpTo_infinity fuel 1 H1).
  - replace (quantize neg_infinity) with neg_infinity by (vm_compute; reflexivity).
    change (JS.strictEq neg_infinity 0) with false.
    change (JS.gt neg_infinity 0) with false.
    change (JS.lt neg_infinity 0) with true.
    replace (JS.Math_round (JS.Math_abs neg_infinity / 0.3)) with infinity
      by (vm_compute; reflexivity).
    cbv beta iota zeta.
    destruct (voxelsInPlane (voxels s) (normal f) (position h)); [congruence|].
    simpl. now rewrite (forUpTo_infinity fuel 1 H1).
Qed.

Lemma pushPullFace_infinite_distance_witness :
  pushPullFace 1000 up infinity pointedPlatform = None.
Proof.
  apply (proj1 (pushPullFace_infinite_distance 1000 up pointedPlatform
                  (mkFace up) (mkVoxel (mkVector3 0 0 0) "#1e88e5")
                  eq_refl eq_refl ltac:(vm_compute; discriminate))).
Defined.

End OddDistances.

(** ** The keyboard shortcuts *)

Section Keyboard.

(** X17. A key pressed with Alt held selects the remove tool whatever
    the key is, and the release of Alt selects the add tool whatever
    tool was selected before Alt was pressed: the earlier tool is not
    restored.  Neither handler touches the voxels or the selection. *)
Theorem alt_key_tool (down up_ : KeyboardEvent) (s : StoreState) :
  altKey down = true ->
  key up_ = "Alt"%string ->
  toolMode (appHandleKeyDown down s) = mode_remove
  /\ toolMode (appHandleKeyUp up_ (appHandleKeyDown down s)) = mode_add
  /\ voxels (appHandleKeyUp up_ (appHandleKeyDown down s)) = voxels s
  /\ hoveredVoxel (appHandleKeyUp up_ (appHandleKeyDown down s)) = hoveredVoxel s
  /\ selectedFace (appHandleKeyUp up_ (appHandleKeyDown down s)) = selectedFace s.
Proof.
  intros Halt Hkey. unfold appHandleKeyUp, appHandleKeyDown.
  rewrite Halt, Hkey. simpl String.eqb. cbv iota.
  destruct (_ || _)%bool; [repeat split|].
  destruct (_ || _)%bool; [repeat split|].
  destruct (_ || _)%bool; repeat split.
Qed.

Lemma alt_key_tool_witness :
  toolMode (appHandleKeyUp (mkKeyboardEvent "Alt" false)
              (appHandleKeyDown (mkKeyboardEvent "Alt" true)
                 (setToolMode mode_pushpull initialState)))
  = mode_add.
Proof.
  apply (alt_key_tool (mkKeyboardEvent "Alt" true) (mkKeyboardEvent "Alt" false)
           (setToolMode mode_pushpull initialState) eq_refl eq_refl).
Defined.

End Keyboard.
